(** * Chart.jsx: axes, legends, item dispatch, composition and width

    A shallow embedding of [lib/ReactViews/Custom/Chart/Chart.jsx]: the
    [Chart] component (computed [yAxes] and [legends], [renderLine],
    [renderChartItem], [renderChart], [render]) and the [Sized] component
    that measures its container and listens to window resizes.

    Conventions.
    - A JavaScript number is a [Js.number]: NaN, the two infinities, or a
      finite value carried as a rational (every finite double is one).  Only
      comparison, [Math.max] and truthiness are used by the component, and
      all three are exact on doubles.
    - An optional prop is an [option]; [None] is an absent ([undefined])
      prop.
    - A function-valued property such as [getColor] takes the receiver of
      the call as an argument, because the source calls it both as a method
      ([data.getColor()]) and as a bare function value ([getColor()]).
    - React elements built by code outside this file are opaque.
    - [Chart.yAxes] and [Chart.legends] are the bodies of the two getters;
      the mobx [@computed] that keeps their values is in [Mounted]. *)

From stdpp Require Import base option list strings gmap.
From Stdlib Require Import QArith.

Local Open Scope string_scope.
Local Close Scope Q_scope.
Local Open Scope nat_scope.

(** ** JavaScript numbers *)

Module Js.

Inductive number : Type :=
| NaN
| NegInfinity
| Finite (q : Q)
| Infinity.

Definition of_Z (z : Z) : number := Finite (inject_Z z).

(** ToBoolean on a number: [0] and [NaN] are falsy. *)
Definition truthy (n : number) : bool :=
  match n with
  | NaN => false
  | Finite q => negb (Qeq_bool q 0)
  | NegInfinity | Infinity => true
  end.

(** [a || b] where [a] is an optional number. *)
Definition or (a : option number) (b : number) : number :=
  match a with
  | Some n => if truthy n then n else b
  | None => b
  end.

(** [Math.max(a, b)]: NaN if either argument is, else the larger one. *)
Definition Math_max (a b : number) : number :=
  match a, b with
  | NaN, _ | _, NaN => NaN
  | Infinity, _ | _, Infinity => Infinity
  | NegInfinity, x | x, NegInfinity => x
  | Finite p, Finite q => if Qle_bool p q then Finite q else Finite p
  end.

(** [a <= b] on numbers; false as soon as one side is NaN. *)
Definition leb (a b : number) : bool :=
  match a, b with
  | NaN, _ | _, NaN => false
  | NegInfinity, _ | _, Infinity => true
  | _, NegInfinity | Infinity, _ => false
  | Finite p, Finite q => Qle_bool p q
  end.

(** A value stored in a point record. *)
Inductive value : Type :=
| VNumber (n : number)
| VString (s : string).

End Js.

(** ** Data model *)

(** A point is a plain object: a finite map from property names to values. *)
Abbreviation Point := (gmap string Js.value).

(** The data properties of a chart item. *)
Record ChartData : Type := {
  type : string;
  units : string;
  name : string;
  points : list Point
}.

(** A chart item: its data properties and the [getColor] function.  The
    argument of [getColor] is the receiver of the call: [Some d] when called
    as a method of the item whose data is [d], [None] when the function
    value is called on its own. *)
Record ChartItem : Type := {
  fields :> ChartData;
  getColor : option ChartData → string
}.

(** [item.getColor()] *)
Definition call_getColor (item : ChartItem) : string :=
  getColor item (Some (fields item)).

(** [const { getColor } = item; getColor()] *)
Definition call_detached_getColor (item : ChartItem) : string :=
  getColor item None.

(** An entry of [yAxes]. *)
Record Axis : Type := {
  axis_units : string;
  axis_color : string
}.

(** An entry of [legends]: [{name, symbol: {fill, type}, labels: {fill}}]. *)
Record Symbol : Type := { symbol_fill : string; symbol_type : string }.
Record Labels : Type := { labels_fill : string }.
Record Legend : Type := {
  legend_name : string;
  legend_symbol : Symbol;
  legend_labels : Labels
}.

(** ** lodash [uniqBy]

    [uniqBy(array, iteratee)] walks [array] once, keeps the list of the
    iteratee values seen so far, and keeps an element exactly when its value
    is not among them (SameValueZero, which on strings is equality). *)

Section UniqBy.
Context {A K : Type} `{EqDecision K}.
Variable iteratee : A → K.

Fixpoint baseUniq (seen : list K) (array : list A) : list A :=
  match array with
  | [] => []
  | value :: rest =>
      let computed := iteratee value in
      if decide (computed ∈ seen)
      then baseUniq seen rest
      else value :: baseUniq (computed :: seen) rest
  end.

Definition uniqBy (array : list A) : list A := baseUniq [] array.

(** [x] stands at index [i] and no earlier element has its key. *)
Definition first_at (l : list A) (i : nat) (x : A) : Prop :=
  l !! i = Some x
  ∧ ∀ j y, l !! j = Some y → j < i → iteratee y ≠ iteratee x.
End UniqBy.

(** ** The [Chart] component *)

Module Chart.

(** [const chartMinWidth = 110] *)
Definition chartMinWidth : Js.number := Js.of_Z 110.

Section Component.
(** [Node]: React elements built outside this file.  [Opaque]: objects
    handed through untouched ([domain], [theme], [containerComponent],
    the scale of the X axis). *)
Context {Node Opaque : Type}.

(** What [renderLine] hands to [VictoryLine]. *)
Record VictoryLine : Type := {
  key : nat;
  line_data : list Point;
  style_data_stroke : string;
  style_labels_fill : string
}.

Inductive Element : Type :=
| Line (l : VictoryLine)
| Other (n : Node).

Record XAxis : Type := {
  xAxis_units : string;
  xAxis_scale : Opaque
}.

(** [this.props], after React has filled in [defaultProps]. *)
Record Props : Type := {
  width : option Js.number;
  height : Js.number;
  domain : option Opaque;
  chartItems : list ChartItem;
  xAxis : option XAxis;
  containerComponent : option Opaque;
  theme : Opaque;
  renderLegends : list Legend → Js.number → Element;
  renderXAxis : string → Element;
  renderYAxis : Axis → nat → nat → Element;
  renderLine : option (ChartItem → nat → Element)
}.

(** The two strategies imported from [./renderMomentLines] and
    [./renderMomentPoints]. *)
Variable renderMomentLines : ChartItem → nat → Element.
Variable renderMomentPoints : ChartItem → list ChartItem → nat → Element.

(** The body of [get yAxes()]; for the [@computed] on it see [Mounted]. *)
Definition yAxes (this : Props) : list Axis :=
  (λ data : ChartItem,
     {| axis_units := units data; axis_color := call_getColor data |})
    <$> uniqBy (λ item : ChartItem, units item) (chartItems this).

(** The body of [get legends()]; for the [@computed] on it see
    [Mounted]. *)
Definition legends (this : Props) : list Legend :=
  (λ item : ChartItem,
     {| legend_name := name item;
        legend_symbol := {| symbol_fill := call_detached_getColor item;
                            symbol_type := "square" |};
        legend_labels := {| labels_fill := "white" |} |})
    <$> chartItems this.

(** The class method [renderLine(data, index)]; [{...p, units, name}] is
    the point with its [units] and [name] properties overwritten. *)
Definition default_renderLine (data : ChartItem) (index : nat) : Element :=
  Line {| key := index;
          line_data :=
            (λ p : Point,
               <["name" := Js.VString (name data)]>
                 (<["units" := Js.VString (units data)]> p))
              <$> points data;
          style_data_stroke := call_getColor data;
          style_labels_fill := call_getColor data |}.

(** [renderChartItem(chartItem, chartItems, index)]; [None] is the
    [undefined] a JavaScript function returns when it falls off its
    end. *)
Definition renderChartItem (this : Props) (chartItem : ChartItem)
    (chartItems : list ChartItem) (index : nat) : option Element :=
  if decide (type chartItem = "line") then
    let renderLine := default default_renderLine (renderLine this) in
    Some (renderLine chartItem index)
  else if decide (type chartItem = "momentLines") then
    Some (renderMomentLines chartItem index)
  else if decide (type chartItem = "momentPoints") then
    Some (renderMomentPoints chartItem chartItems index)
  else None.

(** The [VictoryChart] element built by [renderChart]; its children in
    source order. *)
Record VictoryChart : Type := {
  chart_width : Js.number;
  chart_height : Js.number;
  chart_domain : option Opaque;
  chart_theme : Opaque;
  chart_scale : Opaque;
  chart_containerComponent : option Opaque;
  child_legends : Element;
  child_xAxis : Element;
  child_yAxes : list Element;
  child_items : list (option Element)
}.

Inductive Rendered : Type :=
| Null
| NoData (style_height : Js.number)
| Populated (chart : VictoryChart).

(** [chartItems.some(c => c.points.length > 0)] *)
Definition hasData (this : Props) : bool :=
  existsb (λ c : ChartItem, bool_decide (0 < length (points c)))
          (chartItems this).

(** [renderChart(width, height)] *)
Definition renderChart (this : Props) (width height : Js.number)
    : Rendered :=
  match xAxis this with
  | None => Null
  | Some x =>
      if hasData this then
        Populated
          {| chart_width := width;
             chart_height := height;
             chart_domain := domain this;
             chart_theme := theme this;
             chart_scale := xAxis_scale x;
             chart_containerComponent := containerComponent this;
             child_legends := renderLegends this (legends this) width;
             child_xAxis := renderXAxis this (xAxis_units x);
             child_yAxes :=
               imap (λ i yAxis,
                       renderYAxis this yAxis i (length (yAxes this)))
                    (yAxes this);
             child_items :=
               imap (λ i chartItem,
                       renderChartItem this chartItem (chartItems this) i)
                    (chartItems this) |}
      else NoData height
  end.

(** The width [render] passes on: [Math.max(chartMinWidth,
    this.props.width || parentWidth)]. *)
Definition effectiveWidth (this : Props) (parentWidth : Js.number)
    : Js.number :=
  Js.Math_max chartMinWidth (Js.or (width this) parentWidth).

(** [render()]: the function handed to [Sized] as its child. *)
Definition render (this : Props) : Js.number → Rendered :=
  λ parentWidth,
    renderChart this (effectiveWidth this parentWidth) (height this).

End Component.

Arguments VictoryLine : clear implicits.
Arguments Element : clear implicits.
Arguments XAxis : clear implicits.
Arguments Props : clear implicits.
Arguments VictoryChart : clear implicits.
Arguments Rendered : clear implicits.

End Chart.

(** ** The [Sized] component and the window it listens to *)

Module Sized.

(** A DOM element, by identity, and the layout of the page at one
    instant: the width [getBoundingClientRect()] reports for an element. *)
Definition DomElement : Type := nat.
Definition Layout : Type := DomElement → Js.number.

(** A function object made by [this.updateWidth.bind(this)].  Every call
    of [bind] makes a new object; the window compares listeners by object
    identity. *)
Record BoundFunction : Type := { identity : nat }.

#[global] Instance BoundFunction_eq_dec : EqDecision BoundFunction.
Proof. solve_decision. Defined.

(** The observable fields of the component. *)
Record State : Type := {
  containerElement : option DomElement;
  width : Js.number
}.

(** The component, the listeners registered on [window] (event type and
    function object, in registration order) and the number of function
    objects created so far. *)
Record World : Type := {
  this : State;
  listeners : list (string * BoundFunction);
  allocated : nat
}.

(** [containerElement = undefined; width = 0] *)
Definition initial : State :=
  {| containerElement := None; width := Js.of_Z 0 |}.

(** [attachElement(el)]; React calls the ref with the element when the
    [div] is mounted and with [null] when it is unmounted. *)
Definition attachElement (el : option DomElement) (w : World) : World :=
  {| this := {| containerElement := el; width := width (this w) |};
     listeners := listeners w;
     allocated := allocated w |}.

(** [updateWidth()] *)
Definition updateWidth (layout : Layout) (w : World) : World :=
  match containerElement (this w) with
  | Some el =>
      {| this := {| containerElement := Some el; width := layout el |};
         listeners := listeners w;
         allocated := allocated w |}
  | None => w
  end.

(** [this.updateWidth.bind(this)] *)
Definition bind_updateWidth (w : World) : BoundFunction * World :=
  ({| identity := allocated w |},
   {| this := this w;
      listeners := listeners w;
      allocated := S (allocated w) |}).

(** [window.addEventListener(type, listener)]: a listener already
    registered for the type is not registered twice. *)
Definition addEventListener (type : string) (listener : BoundFunction)
    (w : World) : World :=
  if decide ((type, listener) ∈ listeners w) then w
  else {| this := this w;
          listeners := listeners w ++ [(type, listener)];
          allocated := allocated w |}.

(** [window.removeEventListener(type, listener)]: removes the
    registration of this very function object, if there is one. *)
Definition removeEventListener (type : string) (listener : BoundFunction)
    (w : World) : World :=
  {| this := this w;
     listeners := filter (λ r, r ≠ (type, listener)) (listeners w);
     allocated := allocated w |}.

(** [componentDidMount()] *)
Definition componentDidMount (layout : Layout) (w : World) : World :=
  let w := updateWidth layout w in
  let '(f, w) := bind_updateWidth w in
  addEventListener "resize" f w.

(** [componentWillUnmount()] *)
Definition componentWillUnmount (w : World) : World :=
  let '(f, w) := bind_updateWidth w in
  removeEventListener "resize" f w.

(** The window fires an event: every listener registered for its type is
    called, in registration order.  All function objects here are bound
    [updateWidth]s. *)
Definition dispatchEvent (type : string) (layout : Layout) (w : World)
    : World :=
  foldl (λ w _, updateWidth layout w) w
        (filter (λ r, r.1 = type) (listeners w)).

(** [render()]: the child function applied to [{width: this.width}]. *)
Definition render {R : Type} (children : Js.number → R) (w : World) : R :=
  children (width (this w)).

(** React mounts the component: the ref of the [div], then
    [componentDidMount]. *)
Definition mount (el : DomElement) (layout : Layout) (w : World) : World :=
  componentDidMount layout (attachElement (Some el) w).

(** React unmounts it: [componentWillUnmount], then the ref is cleared. *)
Definition unmount (w : World) : World :=
  attachElement None (componentWillUnmount w).

(** A fresh page: the component just constructed, no listener. *)
Definition fresh : World :=
  {| this := initial; listeners := []; allocated := 0 |}.

End Sized.

(** ** The [@computed] getters of a mounted [Chart]

    [yAxes] and [legends] are mobx [@computed] getters of an [@observer]
    component.  Read while the component renders, such a getter keeps the
    value of its last computation and computes anew only after something
    mobx observes has changed: [this.props], which mobx-react makes
    observable, or an observable an accessor has read.  A change mobx does
    not observe (a plain variable an accessor closes over) leaves the kept
    value in place. *)

Module Mounted.

Section Instance.
Context {Node Opaque : Type}.

(** A mounted component: what its props stand for now, and the value each
    getter keeps ([None]: not computed yet, or stale). *)
Record Instance : Type := {
  props : Chart.Props Node Opaque;
  yAxes_value : option (list Axis);
  legends_value : option (list Legend)
}.

Definition mount (p : Chart.Props Node Opaque) : Instance :=
  {| props := p; yAxes_value := None; legends_value := None |}.

(** [this.yAxes]: the value kept, or the getter body on the props as they
    stand, which is then kept. *)
Definition yAxes (c : Instance) : list Axis * Instance :=
  match yAxes_value c with
  | Some v => (v, c)
  | None =>
      let v := Chart.yAxes (props c) in
      (v, {| props := props c; yAxes_value := Some v;
             legends_value := legends_value c |})
  end.

(** [this.legends] *)
Definition legends (c : Instance) : list Legend * Instance :=
  match legends_value c with
  | Some v => (v, c)
  | None =>
      let v := Chart.legends (props c) in
      (v, {| props := props c; yAxes_value := yAxes_value c;
             legends_value := Some v |})
  end.

(** The same props once the accessors of the items answer differently:
    item [i] keeps its data properties and answers as [colors i]. *)
Definition recolour (colors : nat → option ChartData → string)
    (p : Chart.Props Node Opaque) : Chart.Props Node Opaque :=
  {| Chart.width := Chart.width p;
     Chart.height := Chart.height p;
     Chart.domain := Chart.domain p;
     Chart.chartItems :=
       imap (λ i item, {| fields := fields item; getColor := colors i |})
            (Chart.chartItems p);
     Chart.xAxis := Chart.xAxis p;
     Chart.containerComponent := Chart.containerComponent p;
     Chart.theme := Chart.theme p;
     Chart.renderLegends := Chart.renderLegends p;
     Chart.renderXAxis := Chart.renderXAxis p;
     Chart.renderYAxis := Chart.renderYAxis p;
     Chart.renderLine := Chart.renderLine p |}.

(** What happens to a mounted component. *)
Inductive Event : Type :=
| ReceiveProps (p : Chart.Props Node Opaque)
    (* React hands it other props: mobx-react reports [this.props] changed *)
| AccessorsChange (observed : bool)
    (colors : nat → option ChartData → string)
    (* what the accessors answer changes, through an observable they read
       ([observed]) or through something mobx does not see *)
| ReadYAxes
| ReadLegends.

Definition step (e : Event) (c : Instance) : Instance :=
  match e with
  | ReceiveProps p => mount p
  | AccessorsChange true colors => mount (recolour colors (props c))
  | AccessorsChange false colors =>
      {| props := recolour colors (props c);
         yAxes_value := yAxes_value c;
         legends_value := legends_value c |}
  | ReadYAxes => (yAxes c).2
  | ReadLegends => (legends c).2
  end.

Definition run (events : list Event) (c : Instance) : Instance :=
  foldl (λ c e, step e c) c events.

(** Every change of the event is one mobx observes. *)
Definition observed (e : Event) : Prop :=
  match e with
  | AccessorsChange false _ => False
  | _ => True
  end.

(** The values kept are those of the getter bodies on the props as they
    stand. *)
Definition coherent (c : Instance) : Prop :=
  (∀ v, yAxes_value c = Some v → v = Chart.yAxes (props c))
  ∧ (∀ v, legends_value c = Some v → v = Chart.legends (props c)).

End Instance.

Arguments Instance : clear implicits.
Arguments Event : clear implicits.

End Mounted.

(** ** Vocabulary of the statements *)

(** [r] is the larger of [a] and [b]: above both, and one of them. *)
Definition is_larger_of (a b r : Js.number) : Prop :=
  Js.leb a r = true ∧ Js.leb b r = true ∧ (r = a ∨ r = b).

(** An accessor that does not look at its receiver (an arrow function, a
    closure over the series): both ways of calling it give one result. *)
Definition receiver_independent (item : ChartItem) : Prop :=
  ∀ r r', getColor item r = getColor item r'.

(** Two items that cannot be told apart: equal data properties, and
    [getColor] accessors that return equal values on every call. *)
Definition same_item (a b : ChartItem) : Prop :=
  fields a = fields b ∧ ∀ r, getColor a r = getColor b r.

(** The width read as "the larger of the supplied width, when one is given,
    and the measured width". *)
Definition larger_of_supplied_and_measured (supplied : option Js.number)
    (measured : Js.number) : Js.number :=
  match supplied with
  | Some s => Js.Math_max s measured
  | None => measured
  end.

(** Function objects are numbered as they are created: every listener on
    the window was created before now. *)
Definition listeners_allocated (w : Sized.World) : Prop :=
  ∀ type f,
    (type, f) ∈ Sized.listeners w → Sized.identity f < Sized.allocated w.

(** ** Sample inputs *)

Module Sample.

Definition point (x y : Z) : Point :=
  {[ "x" := Js.VNumber (Js.of_Z x); "y" := Js.VNumber (Js.of_Z y) ]}.

(** An item whose [getColor] is a closure returning [color]. *)
Definition item (type units name color : string) (points : list Point)
    : ChartItem :=
  {| fields := {| type := type; units := units; name := name;
                  points := points |};
     getColor := λ _, color |}.

Definition A : ChartItem := item "line" "m" "A" "red" [point 0 1].

(** [A] again, with an accessor that looks at its receiver and answers
    the same color either way. *)
Definition A' : ChartItem :=
  {| fields := fields A;
     getColor := λ r, match r with Some _ => "red" | None => "red" end |}.

Definition B : ChartItem := item "line" "m" "B" "blue" [point 0 2].
Definition C : ChartItem := item "momentLines" "m" "C" "green" [point 0 0].
Definition D : ChartItem := item "momentPoints" "s" "D" "black" [point 1 1].
Definition U : ChartItem := item "unknownKind" "kg" "U" "grey" [point 2 2].

(** Elements are told apart by a description and a number. *)
Definition element : Type := Chart.Element (string * nat).

Definition renderMomentLines (c : ChartItem) (i : nat) : element :=
  Chart.Other ("momentLines " ++ name c, i).

(** A point overlay that reports how many series it was handed. *)
Definition renderMomentPoints (c : ChartItem) (all : list ChartItem)
    (i : nat) : element :=
  Chart.Other ("momentPoints " ++ name c, length all).

Definition props (width : option Js.number) (xAxis : bool)
    (renderLine : option (ChartItem → nat → element))
    (chartItems : list ChartItem)
    : Chart.Props (string * nat) unit :=
  {| Chart.width := width;
     Chart.height := Js.of_Z 110;
     Chart.domain := None;
     Chart.chartItems := chartItems;
     Chart.xAxis :=
       if xAxis
       then Some {| Chart.xAxis_units := "time"; Chart.xAxis_scale := () |}
       else None;
     Chart.containerComponent := None;
     Chart.theme := ();
     Chart.renderLegends := λ l _, Chart.Other ("legend", length l);
     Chart.renderXAxis := λ label, Chart.Other ("x axis " ++ label, 0);
     Chart.renderYAxis :=
       λ axis i _, Chart.Other ("y axis " ++ axis_units axis, i);
     Chart.renderLine := renderLine |}.

Definition override (c : ChartItem) (i : nat) : element :=
  Chart.Other ("custom line " ++ name c, i).

(** A container 300 wide, later 500 wide. *)
Definition narrow : Sized.Layout := λ _, Js.of_Z 300.
Definition wide : Sized.Layout := λ _, Js.of_Z 500.

End Sample.

(** ** Default renderers *)

Module Defaults.

(** The props of a [VictoryAxis] element as the default renderers set
    them; a prop left out or set to [undefined] is [None]. *)
Record VictoryAxis : Type := {
  dependentAxis : bool;
  axis_key : option nat;
  label : option string
}.

Section Renderers.
(** How a [VictoryAxis] element sits among the elements built outside
    [Chart]. *)
Context {Node : Type}.
Variable element : VictoryAxis → Node.

(** [renderXAxis: label => <VictoryAxis label={label} />] *)
Definition renderXAxis (label : string) : Chart.Element Node :=
  Chart.Other (element {| dependentAxis := false; axis_key := None;
                          label := Some label |}).

(** [renderYAxis: ({ label }, i) => <VictoryAxis dependentAxis key={i}
    label={label} />].  The first argument is read for a [label] property;
    an [Axis] has [units] and [color] and no other, so [label] is
    [undefined]. *)
Definition renderYAxis (yAxis : Axis) (i : nat) (n : nat)
    : Chart.Element Node :=
  Chart.Other (element {| dependentAxis := true; axis_key := Some i;
                          label := None |}).
End Renderers.

End Defaults.

(** ** More vocabulary *)

(** The item types the dispatch knows. *)
Definition recognised (item : ChartItem) : Prop :=
  type item = "line" ∨ type item = "momentLines"
  ∨ type item = "momentPoints".

(** One life of a [Sized] on a page: mounted on [el], then unmounted. *)
Definition mount_unmount (el : Sized.DomElement) (layout : Sized.Layout)
    (w : Sized.World) : Sized.World :=
  Sized.unmount (Sized.mount el layout w).

(** The world a resize leaves when it finds [el] attached and measures it
    under [layout]. *)
Definition measured (el : Sized.DomElement) (layout : Sized.Layout)
    (w : Sized.World) : Sized.World :=
  {| Sized.this := {| Sized.containerElement := Some el;
                      Sized.width := layout el |};
     Sized.listeners := Sized.listeners w;
     Sized.allocated := Sized.allocated w |}.

(** A chart with the default Y-axis renderer, and a series [E] in a unit
    not charted by the other samples. *)
Module SampleDefaults.

Definition E : ChartItem :=
  Sample.item "line" "K" "E" "orange" [Sample.point 3 3].

(** An element is a [VictoryAxis] or something else, told by a name. *)
Definition node : Type := (Defaults.VictoryAxis + string)%type.

Definition props (chartItems : list ChartItem) : Chart.Props node unit :=
  {| Chart.width := None;
     Chart.height := Js.of_Z 110;
     Chart.domain := None;
     Chart.chartItems := chartItems;
     Chart.xAxis :=
       Some {| Chart.xAxis_units := "time"; Chart.xAxis_scale := () |};
     Chart.containerComponent := None;
     Chart.theme := ();
     Chart.renderLegends := λ _ _, Chart.Other (inr "legend");
     Chart.renderXAxis := Defaults.renderXAxis inl;
     Chart.renderYAxis := Defaults.renderYAxis inl;
     Chart.renderLine := None |}.

Definition renderMomentLines (c : ChartItem) (i : nat)
    : Chart.Element node :=
  Chart.Other (inr ("momentLines " ++ name c)).

Definition renderMomentPoints (c : ChartItem) (all : list ChartItem)
    (i : nat) : Chart.Element node :=
  Chart.Other (inr ("momentPoints " ++ name c)).

End SampleDefaults.

(** * Properties *)

(** ** [uniqBy] keeps the first element of every key, in order *)

Section UniqByFacts.
Context {A K : Type} `{EqDecision K}.
Variable f : A → K.

Lemma baseUniq_elem seen l x :
  x ∈ baseUniq f seen l → x ∈ l ∧ f x ∉ seen.
Proof.
  revert seen. induction l as [|y l IH]; intros seen; simpl.
  - by intros ?%elem_of_nil.
  - destruct (decide (f y ∈ seen)) as [Hin|Hnin].
    + intros [? ?]%IH. split; [by right|done].
    + intros [->|Hx]%elem_of_cons.
      * split; [by left|done].
      * apply IH in Hx as [? Hs]. split; [by right|].
        intros ?. apply Hs. by right.
Qed.

Lemma baseUniq_keys seen l k :
  k ∈ f <$> l → k ∉ seen → k ∈ f <$> baseUniq f seen l.
Proof.
  revert seen. induction l as [|y l IH]; intros seen; simpl; [done|].
  intros Hk Hs. destruct (decide (f y ∈ seen)) as [Hin|Hnin].
  - apply IH; [|done].
    apply elem_of_cons in Hk as [->|?]; done.
  - simpl. destruct (decide (k = f y)) as [->|Hne]; [by left|].
    right. apply IH.
    + apply elem_of_cons in Hk as [?|?]; done.
    + by intros [?|?]%elem_of_cons.
Qed.

Lemma baseUniq_NoDup seen l : NoDup (f <$> baseUniq f seen l).
Proof.
  revert seen. induction l as [|y l IH]; intros seen; simpl.
  - constructor.
  - destruct (decide (f y ∈ seen)); [apply IH|].
    simpl. constructor; [|apply IH].
    intros (x & Hfx & Hx)%list_elem_of_fmap.
    apply baseUniq_elem in Hx as [_ Hx]. apply Hx. rewrite Hfx. by left.
Qed.

Lemma first_at_here x l : first_at f (x :: l) 0 x.
Proof. split; [done|]. intros; lia. Qed.

Lemma first_at_later z l i x :
  f z ≠ f x → first_at f l i x → first_at f (z :: l) (S i) x.
Proof.
  intros Hne [Hi Hfirst]. split; [done|].
  intros [|j] y Hy Hlt; simplify_eq/=; [done|].
  apply (Hfirst j); [done|lia].
Qed.

Lemma first_at_list_find l i x `{!∀ y, Decision (f y = f x)} :
  first_at f l i x ↔ list_find (λ y, f y = f x) l = Some (i, x).
Proof.
  rewrite list_find_Some. unfold first_at. split.
  - intros [? Hfirst]. split_and!; [done|done|].
    intros j y ? ?. by apply (Hfirst j).
  - intros (? & _ & Hfirst). split; [done|].
    intros j y ? ?. by apply (Hfirst j).
Qed.

(** Every element kept is the first of its key in the input. *)
Lemma baseUniq_lookup seen l k x :
  baseUniq f seen l !! k = Some x → ∃ i, first_at f l i x.
Proof.
  revert seen k. induction l as [|z l IH]; intros seen k; simpl; [done|].
  destruct (decide (f z ∈ seen)) as [Hin|Hnin].
  - intros Hk. destruct (IH _ _ Hk) as [i Hi]. exists (S i).
    apply first_at_later; [|done].
    apply list_elem_of_lookup_2, baseUniq_elem in Hk as [_ Hs].
    intros Heq. apply Hs. by rewrite <-Heq.
  - destruct k as [|k]; simpl.
    + intros [= ->]. exists 0. apply first_at_here.
    + intros Hk. destruct (IH _ _ Hk) as [i Hi]. exists (S i).
      apply first_at_later; [|done].
      apply list_elem_of_lookup_2, baseUniq_elem in Hk as [_ Hs].
      intros Heq. apply Hs. rewrite <-Heq. by left.
Qed.

(** Two kept elements were first seen in the order they are kept in. *)
Lemma baseUniq_order seen l k1 k2 x1 x2 :
  k1 < k2 →
  baseUniq f seen l !! k1 = Some x1 →
  baseUniq f seen l !! k2 = Some x2 →
  ∃ i1 i2, i1 < i2 ∧ first_at f l i1 x1 ∧ first_at f l i2 x2.
Proof.
  revert seen k1 k2. induction l as [|z l IH]; intros seen k1 k2; simpl;
    [done|].
  intros Hlt. destruct (decide (f z ∈ seen)) as [Hin|Hnin].
  - intros H1 H2. destruct (IH _ _ _ Hlt H1 H2) as (i1 & i2 & ? & ? & ?).
    apply list_elem_of_lookup_2, baseUniq_elem in H1 as [_ Hs1].
    apply list_elem_of_lookup_2, baseUniq_elem in H2 as [_ Hs2].
    exists (S i1), (S i2).
    split_and!; [lia|apply first_at_later|apply first_at_later]; try done.
    + intros Heq. apply Hs1. by rewrite <-Heq.
    + intros Heq. apply Hs2. by rewrite <-Heq.
  - destruct k1 as [|k1], k2 as [|k2]; try lia; simpl.
    + intros [= ->] H2. destruct (baseUniq_lookup _ _ _ _ H2) as [i Hi].
      apply list_elem_of_lookup_2, baseUniq_elem in H2 as [_ Hs2].
      exists 0, (S i).
      split_and!; [lia|apply first_at_here|apply first_at_later]; try done.
      intros Heq. apply Hs2. rewrite <-Heq. by left.
    + intros H1 H2. assert (k1 < k2) as Hlt' by lia.
      destruct (IH _ _ _ Hlt' H1 H2) as (i1 & i2 & ? & ? & ?).
      apply list_elem_of_lookup_2, baseUniq_elem in H1 as [_ Hs1].
      apply list_elem_of_lookup_2, baseUniq_elem in H2 as [_ Hs2].
      exists (S i1), (S i2).
      split_and!; [lia|apply first_at_later|apply first_at_later]; try done.
      * intros Heq. apply Hs1. rewrite <-Heq. by left.
      * intros Heq. apply Hs2. rewrite <-Heq. by left.
Qed.
End UniqByFacts.

(** ** Axis derivation *)

Section AxisDerivation.
Context {Node Opaque : Type}.
Implicit Types this : Chart.Props Node Opaque.

Lemma yAxes_lookup this k a :
  Chart.yAxes this !! k = Some a →
  ∃ item : ChartItem,
    uniqBy (λ c : ChartItem, units c) (Chart.chartItems this) !! k
    = Some item
    ∧ axis_units a = units item
    ∧ axis_color a = call_getColor item.
Proof.
  unfold Chart.yAxes. rewrite list_lookup_fmap.
  intros (item & ? & ->)%fmap_Some. by exists item.
Qed.

Lemma yAxes_units this :
  axis_units <$> Chart.yAxes this
  = (λ c : ChartItem, units c)
      <$> uniqBy (λ c : ChartItem, units c) (Chart.chartItems this).
Proof.
  unfold Chart.yAxes. rewrite <-list_fmap_compose. by apply list_fmap_ext.
Qed.

(** C1. For every list of chart items, [yAxes] holds exactly one axis per
    distinct [units] value: the units of the axes have no duplicate, are
    the units that occur among the items, and there are as many axes as
    distinct units.  An axis takes the units and the [getColor()] of the
    first item of the list that carries its units, and the axes stand in
    the order in which those first items stand in the list. *)
Theorem yAxes_one_axis_per_unit_first_seen this :
  let items := Chart.chartItems this in
  let axes := Chart.yAxes this in
  NoDup (axis_units <$> axes)
  ∧ (∀ u, u ∈ axis_units <$> axes
          ↔ u ∈ (λ c : ChartItem, units c) <$> items)
  ∧ length axes = size (list_to_set (C := gset string)
                           ((λ c : ChartItem, units c) <$> items))
  ∧ (∀ k a, axes !! k = Some a →
       ∃ (i : nat) (item : ChartItem),
         list_find (λ c : ChartItem, units c = axis_units a) items
           = Some (i, item)
         ∧ axis_color a = call_getColor item)
  ∧ (∀ k1 k2 a1 a2 i1 i2 c1 c2,
       k1 < k2 →
       axes !! k1 = Some a1 → axes !! k2 = Some a2 →
       list_find (λ c : ChartItem, units c = axis_units a1) items
         = Some (i1, c1) →
       list_find (λ c : ChartItem, units c = axis_units a2) items
         = Some (i2, c2) →
       i1 < i2).
Proof.
  intros items axes.
  assert (NoDup (axis_units <$> axes)) as Hnodup.
  { subst axes. rewrite yAxes_units. apply baseUniq_NoDup. }
  assert (∀ u, u ∈ axis_units <$> axes
               ↔ u ∈ (λ c : ChartItem, units c) <$> items) as Hmem.
  { intros u. subst axes. rewrite yAxes_units. split.
    - intros (c & -> & Hc)%list_elem_of_fmap.
      apply baseUniq_elem in Hc as [Hc _].
      by apply (list_elem_of_fmap_2 (λ c : ChartItem, units c)).
    - intros Hu.
      apply (baseUniq_keys (λ c : ChartItem, units c) [] items u);
        [done|by intros ?%elem_of_nil]. }
  split_and!; [done|done| | |].
  - rewrite <-(length_fmap axis_units axes).
    rewrite <-(size_list_to_set (C := gset string)) by done.
    f_equal. apply set_eq. intros u. rewrite !elem_of_list_to_set.
    apply Hmem.
  - intros k a (item & Hk & Hu & Hc)%yAxes_lookup.
    destruct (baseUniq_lookup _ _ _ _ _ Hk) as [i Hi].
    exists i, item. split; [|done].
    rewrite Hu. by apply (first_at_list_find (λ c : ChartItem, units c)).
  - intros k1 k2 a1 a2 i1 i2 c1 c2 Hlt
      (x1 & Hk1 & Hu1 & _)%yAxes_lookup (x2 & Hk2 & Hu2 & _)%yAxes_lookup.
    rewrite Hu1, Hu2. intros Hf1 Hf2.
    destruct (baseUniq_order _ _ _ _ _ _ _ Hlt Hk1 Hk2)
      as (j1 & j2 & Hj & Hj1 & Hj2).
    pose proof (proj1 (first_at_list_find _ _ _ _) Hj1) as Hg1.
    pose proof (proj1 (first_at_list_find _ _ _ _) Hj2) as Hg2.
    unfold items in *. simpl in *. congruence.
Qed.
End AxisDerivation.

(** ** Legend derivation *)

Section LegendDerivation.
Context {Node Opaque : Type}.
Implicit Types this : Chart.Props Node Opaque.

Lemma getColor_either_call (item : ChartItem) :
  receiver_independent item →
  call_detached_getColor item = call_getColor item.
Proof. intros Hind. apply Hind. Qed.

Lemma legends_lookup this (i : nat) (item : ChartItem) :
  Chart.chartItems this !! i = Some item →
  Chart.legends this !! i
  = Some {| legend_name := name item;
            legend_symbol :=
              {| symbol_fill := call_detached_getColor item;
                 symbol_type := "square" |};
            legend_labels := {| labels_fill := "white" |} |}.
Proof.
  intros Hi. unfold Chart.legends. by rewrite list_lookup_fmap, Hi.
Qed.

(** C5. For every list of chart items, [legends] has as many entries as
    there are items, whatever their units, and the entry at an index comes
    from the item at that index: it carries the name of the item, a
    ["square"] swatch filled with the result of the item's [getColor()]
    (called as the bare function value; the same as the method call for an
    accessor that ignores its receiver) and the fixed label color
    ["white"]. *)
Theorem legends_one_entry_per_item this :
  length (Chart.legends this) = length (Chart.chartItems this)
  ∧ ∀ (i : nat) (item : ChartItem),
      Chart.chartItems this !! i = Some item →
      ∃ entry,
        Chart.legends this !! i = Some entry
        ∧ legend_name entry = name item
        ∧ symbol_fill (legend_symbol entry) = call_detached_getColor item
        ∧ (receiver_independent item →
           symbol_fill (legend_symbol entry) = call_getColor item)
        ∧ symbol_type (legend_symbol entry) = "square"
        ∧ labels_fill (legend_labels entry) = "white".
Proof.
  split; [apply length_fmap|].
  intros i item Hi. rewrite (legends_lookup _ _ _ Hi).
  eexists. split; [done|]. simpl. split_and!; try done.
  apply getColor_either_call.
Qed.
End LegendDerivation.

(** ** Determinism of the derivations *)

Section Determinism.
Context {A K B : Type} `{EqDecision K}.
Variable R : A → A → Prop.

Lemma baseUniq_Forall2 (f : A → K) seen l1 l2 :
  (∀ a b, R a b → f a = f b) →
  Forall2 R l1 l2 →
  Forall2 R (baseUniq f seen l1) (baseUniq f seen l2).
Proof.
  intros Hf Hl. revert seen.
  induction Hl as [|a b l1 l2 Hab _ IH]; intros seen; simpl; [constructor|].
  rewrite <-(Hf a b Hab).
  destruct (decide (f a ∈ seen)); [apply IH|].
  constructor; [done|apply IH].
Qed.

Lemma fmap_Forall2_eq (g : A → B) l1 l2 :
  (∀ a b, R a b → g a = g b) →
  Forall2 R l1 l2 → g <$> l1 = g <$> l2.
Proof.
  intros Hg Hl. induction Hl as [|a b l1 l2 Hab _ IH]; simpl; [done|].
  f_equal; [by apply Hg|apply IH].
Qed.
End Determinism.

Section DerivationsDeterministic.
Context {Node1 Opaque1 Node2 Opaque2 : Type}.

(** The bodies of the two getters read the chart items alone: on item
    lists that agree item by item (equal data properties, [getColor]
    accessors returning equal values) they give equal axis sequences and
    equal legend sequences, whatever the other props are. *)
Theorem derivations_deterministic
    (this1 : Chart.Props Node1 Opaque1) (this2 : Chart.Props Node2 Opaque2) :
  Forall2 same_item (Chart.chartItems this1) (Chart.chartItems this2) →
  Chart.yAxes this1 = Chart.yAxes this2
  ∧ Chart.legends this1 = Chart.legends this2.
Proof.
  intros Hsame. split.
  - unfold Chart.yAxes. apply (fmap_Forall2_eq same_item).
    + intros a b [Hf Hc]. unfold call_getColor. by rewrite Hf, Hc.
    + apply baseUniq_Forall2; [|done]. intros a b [Hf _]. by rewrite Hf.
  - unfold Chart.legends. apply (fmap_Forall2_eq same_item); [|done].
    intros a b [Hf Hc]. unfold call_detached_getColor. by rewrite Hf, Hc.
Qed.
End DerivationsDeterministic.

Lemma derivations_deterministic_witness :
  let this1 := Sample.props None true None [Sample.A; Sample.B] in
  let this2 :=
    Sample.props (Some (Js.of_Z 200)) false (Some Sample.override)
                 [Sample.A'; Sample.B] in
  Chart.yAxes this1 = Chart.yAxes this2
  ∧ Chart.legends this1 = Chart.legends this2.
Proof.
  apply derivations_deterministic. simpl.
  repeat constructor; by intros [].
Defined.

(** ** The getters as a mounted component answers them *)

Section MemoCoherence.
Context {Node Opaque : Type}.
Implicit Types c : Mounted.Instance Node Opaque.

Lemma mount_coherent (p : Chart.Props Node Opaque) :
  Mounted.coherent (Mounted.mount p).
Proof. split; intros v; simpl; discriminate. Qed.

Lemma read_yAxes_coherent c :
  Mounted.coherent c →
  (Mounted.yAxes c).1 = Chart.yAxes (Mounted.props c)
  ∧ Mounted.coherent (Mounted.yAxes c).2.
Proof.
  intros Hc. pose proof Hc as [Hy Hl]. unfold Mounted.yAxes.
  destruct (Mounted.yAxes_value c) as [v|] eqn:Hv; simpl.
  - split; [by apply Hy|done].
  - split; [done|]. split; simpl; [by intros v [= <-]|done].
Qed.

Lemma read_legends_coherent c :
  Mounted.coherent c →
  (Mounted.legends c).1 = Chart.legends (Mounted.props c)
  ∧ Mounted.coherent (Mounted.legends c).2.
Proof.
  intros Hc. pose proof Hc as [Hy Hl]. unfold Mounted.legends.
  destruct (Mounted.legends_value c) as [v|] eqn:Hv; simpl.
  - split; [by apply Hl|done].
  - split; [done|]. split; simpl; [done|by intros v [= <-]].
Qed.

Lemma step_coherent (e : Mounted.Event Node Opaque) c :
  Mounted.observed e → Mounted.coherent c →
  Mounted.coherent (Mounted.step e c).
Proof.
  intros He Hc. destruct e as [p|[] colors| |]; simpl.
  - apply mount_coherent.
  - apply mount_coherent.
  - destruct He.
  - by apply read_yAxes_coherent.
  - by apply read_legends_coherent.
Qed.

Lemma run_coherent (events : list (Mounted.Event Node Opaque)) c :
  Forall Mounted.observed events → Mounted.coherent c →
  Mounted.coherent (Mounted.run events c).
Proof.
  intros Hes. revert c. induction Hes as [|e es He _ IH]; intros c Hc;
    [done|].
  simpl. apply IH. by apply step_coherent.
Qed.

(** A change mobx does not observe leaves a value that is kept in place. *)
Lemma unobserved_change_keeps_values colors c :
  (Mounted.yAxes
     (Mounted.step (Mounted.AccessorsChange false colors)
        (Mounted.yAxes c).2)).1
  = (Mounted.yAxes c).1
  ∧ (Mounted.legends
       (Mounted.step (Mounted.AccessorsChange false colors)
          (Mounted.legends c).2)).1
    = (Mounted.legends c).1.
Proof.
  unfold Mounted.yAxes, Mounted.legends. split.
  - destruct (Mounted.yAxes_value c) as [v|] eqn:Hv; simpl;
      by rewrite ?Hv.
  - destruct (Mounted.legends_value c) as [v|] eqn:Hv; simpl;
      by rewrite ?Hv.
Qed.
End MemoCoherence.

Section MemoisedDerivations.
Context {Node1 Opaque1 Node2 Opaque2 : Type}.

(** C10, as the code has it.  The two derivations are memoised.  Take two
    mounted components, each with any history of renders, new props and
    accessor changes that mobx observes.  Each answers its getters with the
    derivation from its item list as it stands, so when their item lists
    agree item by item (equal data properties, [getColor] accessors
    returning equal values) they answer with equal axis sequences and equal
    legend sequences.  After a change of the accessors that mobx does not
    observe, a getter still answers with the value it kept. *)
Theorem memoised_derivations_agree
    (p1 : Chart.Props Node1 Opaque1)
    (events1 : list (Mounted.Event Node1 Opaque1))
    (p2 : Chart.Props Node2 Opaque2)
    (events2 : list (Mounted.Event Node2 Opaque2)) :
  Forall Mounted.observed events1 →
  Forall Mounted.observed events2 →
  let c1 := Mounted.run events1 (Mounted.mount p1) in
  let c2 := Mounted.run events2 (Mounted.mount p2) in
  Forall2 same_item (Chart.chartItems (Mounted.props c1))
                    (Chart.chartItems (Mounted.props c2)) →
  (Mounted.yAxes c1).1 = (Mounted.yAxes c2).1
  ∧ (Mounted.legends c1).1 = (Mounted.legends c2).1
  ∧ (Mounted.yAxes c1).1 = Chart.yAxes (Mounted.props c1)
  ∧ (Mounted.legends c1).1 = Chart.legends (Mounted.props c1)
  ∧ ∀ colors,
      (Mounted.yAxes
         (Mounted.step (Mounted.AccessorsChange false colors)
            (Mounted.yAxes c1).2)).1
      = (Mounted.yAxes c1).1
      ∧ (Mounted.legends
           (Mounted.step (Mounted.AccessorsChange false colors)
              (Mounted.legends c1).2)).1
        = (Mounted.legends c1).1.
Proof.
  intros H1 H2 c1 c2 Hsame.
  assert (Mounted.coherent c1) as Hc1
    by by apply run_coherent, mount_coherent.
  assert (Mounted.coherent c2) as Hc2
    by by apply run_coherent, mount_coherent.
  destruct (read_yAxes_coherent c1 Hc1) as [Hy1 _].
  destruct (read_yAxes_coherent c2 Hc2) as [Hy2 _].
  destruct (read_legends_coherent c1 Hc1) as [Hl1 _].
  destruct (read_legends_coherent c2 Hc2) as [Hl2 _].
  destruct (derivations_deterministic _ _ Hsame) as [Hy Hl].
  split_and!; [congruence|congruence|done|done|].
  intros colors. apply unobserved_change_keeps_values.
Qed.
End MemoisedDerivations.

Lemma memoised_derivations_agree_witness :
  let c1 :=
    Mounted.run
      [Mounted.ReadYAxes; Mounted.ReadLegends;
       Mounted.AccessorsChange true (λ _ _, "blue"); Mounted.ReadYAxes]
      (Mounted.mount (Sample.props None true None [Sample.A])) in
  let c2 :=
    Mounted.run [Mounted.ReadLegends]
      (Mounted.mount
         (Sample.props (Some (Js.of_Z 200)) false (Some Sample.override)
            [Sample.item "line" "m" "A" "blue" [Sample.point 0 1]])) in
  (Mounted.yAxes c1).1 = (Mounted.yAxes c2).1
  ∧ (Mounted.legends c1).1 = (Mounted.legends c2).1.
Proof.
  intros c1 c2.
  destruct (memoised_derivations_agree
              (Sample.props None true None [Sample.A])
              [Mounted.ReadYAxes; Mounted.ReadLegends;
               Mounted.AccessorsChange true (λ _ _, "blue");
               Mounted.ReadYAxes]
              (Sample.props (Some (Js.of_Z 200)) false
                 (Some Sample.override)
                 [Sample.item "line" "m" "A" "blue" [Sample.point 0 1]])
              [Mounted.ReadLegends])
    as (Hy & Hl & _).
  - repeat constructor.
  - repeat constructor.
  - simpl. repeat constructor.
  - by split.
Defined.

(** C10, as stated, fails: the getters keep state.  A chart that has
    rendered while the accessor of its one item answered ["red"] still
    answers its getters with red after the accessor has come to answer
    ["blue"] unseen by mobx; a chart mounted afresh on the equal item list,
    with the accessor answering ["blue"], answers with blue. *)
Lemma memoised_getters_keep_stale_values :
  ¬ ∀ (p1 p2 : Chart.Props (string * nat) unit)
      (events1 events2 : list (Mounted.Event (string * nat) unit)),
      let c1 := Mounted.run events1 (Mounted.mount p1) in
      let c2 := Mounted.run events2 (Mounted.mount p2) in
      Forall2 same_item (Chart.chartItems (Mounted.props c1))
                        (Chart.chartItems (Mounted.props c2)) →
      (Mounted.yAxes c1).1 = (Mounted.yAxes c2).1
      ∧ (Mounted.legends c1).1 = (Mounted.legends c2).1.
Proof.
  intros Hclaim.
  specialize (Hclaim
                (Sample.props None true None [Sample.A])
                (Sample.props None true None
                   [Sample.item "line" "m" "A" "blue" [Sample.point 0 1]])
                [Mounted.ReadYAxes; Mounted.ReadLegends;
                 Mounted.AccessorsChange false (λ _ _, "blue")]
                []).
  destruct Hclaim as [Hy _].
  - simpl. repeat constructor.
  - vm_compute in Hy. discriminate Hy.
Qed.

(** ** Composition and the empty-state guard *)

Section Composition.
Context {Node Opaque : Type}.
Variable renderMomentLines : ChartItem → nat → Chart.Element Node.
Variable renderMomentPoints :
  ChartItem → list ChartItem → nat → Chart.Element Node.
Implicit Types this : Chart.Props Node Opaque.

Local Abbreviation renderChartItem :=
  (Chart.renderChartItem renderMomentLines renderMomentPoints).
Local Abbreviation renderChart :=
  (Chart.renderChart renderMomentLines renderMomentPoints).

Lemma hasData_false this :
  Chart.hasData this = false
  ↔ Forall (λ c : ChartItem, points c = []) (Chart.chartItems this).
Proof.
  unfold Chart.hasData.
  induction (Chart.chartItems this) as [|c l IH]; simpl.
  - split; [constructor|done].
  - rewrite orb_false_iff, IH, Forall_cons, bool_decide_eq_false.
    destruct (points c); simpl.
    + split; intros [_ ?]; (split; [done || lia|done]).
    + split; intros [? _]; [lia|done].
Qed.

Lemma hasData_true this :
  Chart.hasData this = true
  ↔ Exists (λ c : ChartItem, points c ≠ []) (Chart.chartItems this).
Proof.
  unfold Chart.hasData.
  induction (Chart.chartItems this) as [|c l IH]; simpl.
  - split; [done|by intros ?%Exists_nil].
  - rewrite orb_true_iff, IH, Exists_cons, bool_decide_eq_true.
    destruct (points c); simpl.
    + split; (intros [?|?]; [lia || done|by right]).
    + split; intros _; left; [done|lia].
Qed.

(** C2. [renderChart] is a ladder of two guards.  Without an X axis it
    returns [null], whatever the items are.  With one, if the [points] of
    every item are empty it returns the placeholder, whose height is the
    height given; otherwise it returns the chart, composed of the legends,
    the X axis, one Y axis per derived axis and one dispatch per item. *)
Theorem renderChart_guard_ladder this (width height : Js.number) :
  (Chart.xAxis this = None → renderChart this width height = Chart.Null)
  ∧ (∀ x, Chart.xAxis this = Some x →
       Forall (λ c : ChartItem, points c = []) (Chart.chartItems this) →
       renderChart this width height = Chart.NoData height)
  ∧ (∀ x, Chart.xAxis this = Some x →
       Exists (λ c : ChartItem, points c ≠ []) (Chart.chartItems this) →
       ∃ chart,
         renderChart this width height = Chart.Populated chart
         ∧ Chart.chart_width chart = width
         ∧ Chart.chart_height chart = height
         ∧ Chart.child_legends chart
           = Chart.renderLegends this (Chart.legends this) width
         ∧ Chart.child_xAxis chart
           = Chart.renderXAxis this (Chart.xAxis_units x)
         ∧ length (Chart.child_yAxes chart) = length (Chart.yAxes this)
         ∧ (∀ (i : nat) (item : ChartItem),
              Chart.chartItems this !! i = Some item →
              Chart.child_items chart !! i
              = Some (renderChartItem this item (Chart.chartItems this) i))).
Proof.
  unfold Chart.renderChart. split_and!.
  - by intros ->.
  - intros x -> Hempty%hasData_false. by rewrite Hempty.
  - intros x -> Hsome%hasData_true. rewrite Hsome.
    eexists. split; [done|]. simpl. split_and!; try done.
    + apply length_imap.
    + intros i item Hi. by rewrite list_lookup_imap, Hi.
Qed.
End Composition.

(** ** Effective width *)

Section JsNumbers.
Import Js.

Lemma Qle_bool_refl q : Qle_bool q q = true.
Proof. apply Qle_bool_iff, Qle_refl. Qed.

Lemma Qle_bool_total p q : Qle_bool p q = false → Qle_bool q p = true.
Proof.
  intros Hpq. apply Qle_bool_iff, Qlt_le_weak, Qnot_le_lt.
  intros Hle%Qle_bool_iff. congruence.
Qed.

(** [Math.max] of two numbers is the larger of the two. *)
Lemma Math_max_is_larger a b :
  a ≠ NaN → b ≠ NaN → is_larger_of a b (Math_max a b).
Proof.
  unfold is_larger_of.
  destruct a as [| |p|], b as [| |q|]; simpl; try done; intros _ _;
    try (split_and!;
         first [done | apply Qle_bool_refl | (by left) | (by right)]).
  destruct (Qle_bool p q) eqn:Hpq; simpl.
  - split_and!; [done|apply Qle_bool_refl|by right].
  - split_and!; [apply Qle_bool_refl|by apply Qle_bool_total|by left].
Qed.

Lemma or_falsy s b : truthy s = false → or (Some s) b = b.
Proof. simpl. by intros ->. Qed.

Lemma or_truthy s b : truthy s = true → or (Some s) b = s.
Proof. simpl. by intros ->. Qed.

Lemma truthy_zero q : (q == 0)%Q → truthy (Finite q) = false.
Proof. intros Hq%Qeq_bool_iff. simpl. by rewrite Hq. Qed.

Lemma truthy_nonzero q b :
  ¬ (q == 0)%Q → or (Some (Finite q)) b = Finite q.
Proof.
  intros Hq. simpl. destruct (Qeq_bool q 0) eqn:Heq; [|done].
  by apply Qeq_bool_iff in Heq.
Qed.
End JsNumbers.

Section EffectiveWidth.
Context {Node Opaque : Type}.
Variable renderMomentLines : ChartItem → nat → Chart.Element Node.
Variable renderMomentPoints :
  ChartItem → list ChartItem → nat → Chart.Element Node.
Implicit Types this : Chart.Props Node Opaque.

(** C3. For every supplied width and every measured width, the width that
    [render] passes to [renderChart] is [Math.max(110, supplied ||
    measured)]: the measured width stands in whenever the supplied one is
    absent or zero (or NaN), a supplied width that is a non-zero number or
    an infinity is taken as it is, and of 110 and the width so chosen the
    larger one is passed on.  The measured width is the one the [Sized]
    wrapper holds when it renders its child. *)
Theorem effectiveWidth_max_of_floor_and_choice this
    (parentWidth : Js.number) :
  let chosen := Js.or (Chart.width this) parentWidth in
  Chart.render renderMomentLines renderMomentPoints this parentWidth
  = Chart.renderChart renderMomentLines renderMomentPoints this
      (Chart.effectiveWidth this parentWidth) (Chart.height this)
  ∧ Chart.effectiveWidth this parentWidth
    = Js.Math_max (Js.of_Z 110) chosen
  ∧ (Chart.width this = None → chosen = parentWidth)
  ∧ (∀ q, Chart.width this = Some (Js.Finite q) → (q == 0)%Q →
       chosen = parentWidth)
  ∧ (∀ s, Chart.width this = Some s → Js.truthy s = true → chosen = s)
  ∧ (chosen ≠ Js.NaN →
     is_larger_of (Js.of_Z 110) chosen
                  (Chart.effectiveWidth this parentWidth))
  ∧ (∀ w : Sized.World,
       Sized.width (Sized.this w) = parentWidth →
       Sized.render
         (Chart.render renderMomentLines renderMomentPoints this) w
       = Chart.renderChart renderMomentLines renderMomentPoints this
           (Js.Math_max (Js.of_Z 110) chosen) (Chart.height this))
  ∧ (∀ q, Chart.width this = Some (Js.Finite q) → ¬ (q == 0)%Q →
       chosen = Js.Finite q
       ∧ Chart.effectiveWidth this parentWidth
         = Js.Math_max (Js.of_Z 110) (Js.Finite q))
  ∧ (Chart.width this = Some Js.Infinity →
     chosen = Js.Infinity
     ∧ Chart.effectiveWidth this parentWidth = Js.Infinity)
  ∧ (Chart.width this = Some Js.NegInfinity →
     chosen = Js.NegInfinity
     ∧ Chart.effectiveWidth this parentWidth = Js.of_Z 110)
  ∧ (Chart.width this = Some Js.NaN → chosen = parentWidth).
Proof.
  intros chosen. subst chosen. unfold Chart.effectiveWidth.
  split_and!; try done; [| | | |by intros w <-| | | |].
  - by intros ->.
  - intros q -> Hq. by apply or_falsy, truthy_zero.
  - intros s -> Hs. by apply or_truthy.
  - intros Hc. by apply Math_max_is_larger.
  - intros q -> Hq. by rewrite (truthy_nonzero q parentWidth Hq).
  - by intros ->.
  - by intros ->.
  - by intros ->.
Qed.

(** C8, as the code has it.  A supplied width that is not zero is the
    width chosen, whatever the measured width is; the measured width is
    chosen only when no width is supplied or the supplied one is zero.
    The width passed on is the larger of 110 and the width chosen. *)
Theorem effectiveWidth_supplied_before_measured this
    (parentWidth supplied : Js.number) :
  Chart.width this = Some supplied →
  Js.truthy supplied = true →
  Chart.effectiveWidth this parentWidth
  = Js.Math_max Chart.chartMinWidth supplied
  ∧ is_larger_of Chart.chartMinWidth supplied
                 (Chart.effectiveWidth this parentWidth)
  ∧ ∀ this' : Chart.Props Node Opaque,
      Chart.width this' = None ∨ Chart.width this' = Some (Js.of_Z 0) →
      Chart.effectiveWidth this' parentWidth
      = Js.Math_max Chart.chartMinWidth parentWidth.
Proof.
  intros Hw Hs. unfold Chart.effectiveWidth. rewrite Hw, or_truthy by done.
  split_and!; [done| |].
  - apply Math_max_is_larger; [done|]. by destruct supplied.
  - by intros this' [-> | ->].
Qed.
End EffectiveWidth.

Lemma effectiveWidth_supplied_before_measured_witness :
  let this := Sample.props (Some (Js.of_Z 200)) true None [] in
  Chart.effectiveWidth this (Js.of_Z 500)
  = Js.Math_max Chart.chartMinWidth (Js.of_Z 200)
  ∧ is_larger_of Chart.chartMinWidth (Js.of_Z 200)
                 (Chart.effectiveWidth this (Js.of_Z 500))
  ∧ ∀ this' : Chart.Props (string * nat) unit,
      Chart.width this' = None ∨ Chart.width this' = Some (Js.of_Z 0) →
      Chart.effectiveWidth this' (Js.of_Z 500)
      = Js.Math_max Chart.chartMinWidth (Js.of_Z 500).
Proof.
  apply (effectiveWidth_supplied_before_measured
           (Sample.props (Some (Js.of_Z 200)) true None [])
           (Js.of_Z 500) (Js.of_Z 200));
    reflexivity.
Defined.

(** C8, as stated, fails: with a width of 200 supplied and a container
    measured 500 wide, the width passed on is 200, not the larger 500. *)
Lemma effectiveWidth_not_larger_of_supplied_and_measured :
  ¬ ∀ (this : Chart.Props (string * nat) unit) (parentWidth : Js.number),
      Chart.effectiveWidth this parentWidth
      = Js.Math_max Chart.chartMinWidth
          (larger_of_supplied_and_measured (Chart.width this) parentWidth).
Proof.
  intros Hclaim.
  specialize (Hclaim (Sample.props (Some (Js.of_Z 200)) true None [])
                     (Js.of_Z 500)).
  vm_compute in Hclaim. discriminate Hclaim.
Qed.

(** ** Item dispatch *)

Section Dispatch.
Context {Node Opaque : Type}.
Variable renderMomentLines : ChartItem → nat → Chart.Element Node.
Variable renderMomentPoints :
  ChartItem → list ChartItem → nat → Chart.Element Node.
Implicit Types this : Chart.Props Node Opaque.
Implicit Types item : ChartItem.

Local Abbreviation renderChartItem :=
  (Chart.renderChartItem renderMomentLines renderMomentPoints).
Local Abbreviation renderChart :=
  (Chart.renderChart renderMomentLines renderMomentPoints).

Lemma renderChartItem_line this item chartItems index :
  type item = "line" →
  renderChartItem this item chartItems index
  = Some (default Chart.default_renderLine (Chart.renderLine this)
            item index).
Proof. intros Ht. unfold Chart.renderChartItem. by rewrite decide_True. Qed.

Lemma renderChartItem_momentLines this item chartItems index :
  type item = "momentLines" →
  renderChartItem this item chartItems index
  = Some (renderMomentLines item index).
Proof.
  intros Ht. unfold Chart.renderChartItem.
  rewrite decide_False by (by rewrite Ht). by rewrite decide_True.
Qed.

Lemma renderChartItem_momentPoints this item chartItems index :
  type item = "momentPoints" →
  renderChartItem this item chartItems index
  = Some (renderMomentPoints item chartItems index).
Proof.
  intros Ht. unfold Chart.renderChartItem.
  rewrite !decide_False by (by rewrite Ht). by rewrite decide_True.
Qed.

Lemma renderChartItem_other this item chartItems index :
  type item ≠ "line" → type item ≠ "momentLines" →
  type item ≠ "momentPoints" →
  renderChartItem this item chartItems index = None.
Proof.
  intros ? ? ?. unfold Chart.renderChartItem.
  by rewrite !decide_False.
Qed.

(** X1. The built-in line drawing is keyed by the index, hands on every
    point of the item with its ["units"] and ["name"] overwritten by those
    of the item and its other properties as they are, and strokes and
    labels in [item.getColor()]. *)
Lemma default_renderLine_points item index :
  ∃ line,
    Chart.default_renderLine (Node := Node) item index = Chart.Line line
    ∧ Chart.key line = index
    ∧ Chart.style_data_stroke line = call_getColor item
    ∧ Chart.style_labels_fill line = call_getColor item
    ∧ length (Chart.line_data line) = length (points item)
    ∧ ∀ (j : nat) (p : Point),
        points item !! j = Some p →
        ∃ p' : Point,
          Chart.line_data line !! j = Some p'
          ∧ p' !! "units" = Some (Js.VString (units item))
          ∧ p' !! "name" = Some (Js.VString (name item))
          ∧ ∀ k, k ≠ "units" → k ≠ "name" → p' !! k = p !! k.
Proof.
  eexists. split; [done|]. simpl. split_and!; try done.
  - apply length_fmap.
  - intros j p Hj. rewrite list_lookup_fmap, Hj. simpl.
    eexists. split; [done|]. split_and!.
    + rewrite lookup_insert_ne by done. apply lookup_insert_eq.
    + apply lookup_insert_eq.
    + intros k ? ?. by rewrite !lookup_insert_ne.
Qed.

(** C4. Dispatch goes by the [type] of the item.  A ["line"] item is drawn
    by the line strategy: by the override of the host for every such item
    when there is one, by the built-in [renderLine] otherwise.  A
    ["momentLines"] item is drawn by [renderMomentLines], applied to the
    item and its index alone.  A ["momentPoints"] item is drawn by
    [renderMomentPoints], applied to the item, the whole item list and the
    index; for every other type the item list handed to the dispatch has
    no bearing on its result. *)
Theorem renderChartItem_dispatch this item chartItems index :
  (type item = "line" →
     (∀ override, Chart.renderLine this = Some override →
        renderChartItem this item chartItems index
        = Some (override item index))
     ∧ (Chart.renderLine this = None →
        renderChartItem this item chartItems index
        = Some (Chart.default_renderLine item index)))
  ∧ (type item = "momentLines" →
       renderChartItem this item chartItems index
       = Some (renderMomentLines item index))
  ∧ (type item = "momentPoints" →
       renderChartItem this item chartItems index
       = Some (renderMomentPoints item chartItems index))
  ∧ (type item ≠ "momentPoints" →
       ∀ siblings,
         renderChartItem this item siblings index
         = renderChartItem this item chartItems index).
Proof.
  split_and!.
  - intros Ht. rewrite renderChartItem_line by done.
    split; [intros override ->|intros ->]; done.
  - apply renderChartItem_momentLines.
  - apply renderChartItem_momentPoints.
  - intros Hne siblings. unfold Chart.renderChartItem.
    repeat case_decide; done.
Qed.

(** C6. An item whose [type] is none of ["line"], ["momentLines"],
    ["momentPoints"] gets no drawing from the dispatch, which returns
    [undefined] and raises nothing.  In a chart that holds such an item,
    its slot among the drawings is empty, every item (the others
    included) has the drawing its own dispatch gives, the item has its
    legend entry, and its units have their axis. *)
Theorem renderChartItem_unrecognised_type_skipped this item :
  type item ≠ "line" → type item ≠ "momentLines" →
  type item ≠ "momentPoints" →
  (∀ chartItems index, renderChartItem this item chartItems index = None)
  ∧ (∀ (i : nat) x width height,
       Chart.chartItems this !! i = Some item →
       Chart.xAxis this = Some x →
       Chart.hasData this = true →
       ∃ chart,
         renderChart this width height = Chart.Populated chart
         ∧ Chart.child_items chart !! i = Some None
         ∧ (∀ (j : nat) (other : ChartItem),
              Chart.chartItems this !! j = Some other →
              Chart.child_items chart !! j
              = Some (renderChartItem this other (Chart.chartItems this) j))
         ∧ Chart.child_legends chart
           = Chart.renderLegends this (Chart.legends this) width
         ∧ (∃ entry, Chart.legends this !! i = Some entry
                     ∧ legend_name entry = name item)
         ∧ Chart.child_yAxes chart
           = imap (λ k yAxis,
                     Chart.renderYAxis this yAxis k
                       (length (Chart.yAxes this)))
                  (Chart.yAxes this)
         ∧ units item ∈ axis_units <$> Chart.yAxes this).
Proof.
  intros Hl Hml Hmp. split.
  - intros chartItems index. by apply renderChartItem_other.
  - intros i x width height Hi Hx Hdata.
    unfold Chart.renderChart. rewrite Hx, Hdata.
    eexists. split; [done|]. simpl. split_and!; try done.
    + rewrite list_lookup_imap, Hi. simpl.
      by rewrite renderChartItem_other.
    + intros j other Hj. by rewrite list_lookup_imap, Hj.
    + rewrite (legends_lookup _ _ _ Hi). by eexists.
    + rewrite yAxes_units.
      apply (baseUniq_keys (λ c : ChartItem, units c));
        [|by intros ?%elem_of_nil].
      apply (list_elem_of_fmap_2 (λ c : ChartItem, units c)).
      by eapply list_elem_of_lookup_2.
Qed.

(** C9. Only the line strategy can be overridden.  For an item that is
    not a ["line"], two components that differ in their [renderLine]
    override (or in any other prop) dispatch to the same drawing; for
    ["momentLines"] and ["momentPoints"] it is the drawing of the built-in
    strategy. *)
Theorem renderChartItem_override_only_for_lines
    (this1 this2 : Chart.Props Node Opaque) item chartItems index :
  type item ≠ "line" →
  renderChartItem this1 item chartItems index
  = renderChartItem this2 item chartItems index
  ∧ (type item = "momentLines" →
     renderChartItem this1 item chartItems index
     = Some (renderMomentLines item index))
  ∧ (type item = "momentPoints" →
     renderChartItem this1 item chartItems index
     = Some (renderMomentPoints item chartItems index)).
Proof.
  intros Hne. split_and!.
  - unfold Chart.renderChartItem. by rewrite !(decide_False (P := _ = "line")).
  - apply renderChartItem_momentLines.
  - apply renderChartItem_momentPoints.
Qed.
End Dispatch.

Lemma renderChartItem_unrecognised_type_skipped_witness :
  let this := Sample.props None true None [Sample.A; Sample.U; Sample.D] in
  (∀ chartItems index,
     Chart.renderChartItem Sample.renderMomentLines Sample.renderMomentPoints
       this Sample.U chartItems index = None)
  ∧ Chart.child_items
      <$> (match Chart.renderChart Sample.renderMomentLines
                   Sample.renderMomentPoints this (Js.of_Z 300) (Js.of_Z 110)
           with Chart.Populated chart => Some chart | _ => None end)
    = Some [Some (Chart.default_renderLine Sample.A 0); None;
            Some (Chart.Other ("momentPoints D", 3))].
Proof.
  split.
  - apply (renderChartItem_unrecognised_type_skipped
             Sample.renderMomentLines Sample.renderMomentPoints
             (Sample.props None true None [Sample.A; Sample.U; Sample.D])
             Sample.U); by vm_compute.
  - reflexivity.
Defined.

Lemma renderChartItem_override_only_for_lines_witness :
  let items := [Sample.A; Sample.C; Sample.D] in
  let this1 := Sample.props None true None items in
  let this2 := Sample.props None true (Some Sample.override) items in
  Chart.renderChartItem Sample.renderMomentLines Sample.renderMomentPoints
    this1 Sample.D items 2
  = Chart.renderChartItem Sample.renderMomentLines Sample.renderMomentPoints
      this2 Sample.D items 2
  ∧ (type Sample.D = "momentLines" →
     Chart.renderChartItem Sample.renderMomentLines Sample.renderMomentPoints
       this1 Sample.D items 2
     = Some (Sample.renderMomentLines Sample.D 2))
  ∧ (type Sample.D = "momentPoints" →
     Chart.renderChartItem Sample.renderMomentLines Sample.renderMomentPoints
       this1 Sample.D items 2
     = Some (Sample.renderMomentPoints Sample.D items 2)).
Proof.
  intros items this1 this2.
  refine (renderChartItem_override_only_for_lines
            Sample.renderMomentLines Sample.renderMomentPoints
            this1 this2 Sample.D items 2 _).
  by vm_compute.
Defined.

(** ** The resize listener of [Sized] *)

Section ResizeListener.
Import Sized.

Lemma filter_keeps_all {A} (P : A → Prop) `{!∀ x, Decision (P x)}
    (l : list A) :
  (∀ x, x ∈ l → P x) → filter P l = l.
Proof.
  induction l as [|x l IH]; intros Hall; [done|].
  rewrite filter_cons_True by (apply Hall; by left).
  f_equal. apply IH. intros y Hy. apply Hall. by right.
Qed.

Lemma fresh_listeners_allocated : listeners_allocated fresh.
Proof. intros type f []%elem_of_nil. Qed.

(** The window does drop a listener when it is handed the function object
    that was registered. *)
Lemma removeEventListener_same type f w :
  (type, f)
    ∉ listeners (removeEventListener type f (addEventListener type f w)).
Proof.
  unfold removeEventListener. simpl.
  intros [Hne _]%list_elem_of_filter. by apply Hne.
Qed.

Lemma updateWidth_listeners layout w :
  listeners (updateWidth layout w) = listeners w
  ∧ allocated (updateWidth layout w) = allocated w.
Proof. unfold updateWidth. by destruct (containerElement (this w)). Qed.

(** [componentDidMount] registers a function object made on the spot. *)
Lemma componentDidMount_listeners layout w :
  listeners_allocated w →
  listeners (componentDidMount layout w)
  = (listeners w ++ [("resize", {| identity := allocated w |})])%list
  ∧ allocated (componentDidMount layout w) = S (allocated w).
Proof.
  intros Hw. unfold componentDidMount, bind_updateWidth, addEventListener.
  destruct (updateWidth_listeners layout w) as [Hl Ha].
  simpl. rewrite Hl, Ha. rewrite decide_False; [done|].
  intros Hin%Hw. simpl in Hin. lia.
Qed.

(** [componentWillUnmount] hands the window a function object made on the
    spot, which is not registered: every listener stays. *)
Lemma componentWillUnmount_listeners w :
  listeners_allocated w →
  listeners (componentWillUnmount w) = listeners w.
Proof.
  intros Hw. unfold componentWillUnmount, bind_updateWidth,
    removeEventListener. simpl.
  apply filter_keeps_all. intros [type f] Hin [= -> ->].
  apply Hw in Hin. simpl in Hin. lia.
Qed.

Lemma componentDidMount_allocated layout w :
  listeners_allocated w → listeners_allocated (componentDidMount layout w).
Proof.
  intros Hw type f.
  destruct (componentDidMount_listeners layout w Hw) as [-> ->].
  intros [Hin|Hin]%elem_of_app.
  - apply Hw in Hin. lia.
  - apply list_elem_of_singleton in Hin as [= -> ->]. simpl. lia.
Qed.

Lemma attachElement_allocated el w :
  listeners_allocated w → listeners_allocated (attachElement el w).
Proof. done. Qed.

(** After mount and unmount, the listener registered on mount is still
    registered on the window. *)
Lemma unmount_keeps_listener el layout w :
  listeners_allocated w →
  ("resize", {| identity := allocated w |})
    ∈ listeners (unmount (mount el layout w)).
Proof.
  intros Hw.
  change (listeners (unmount (mount el layout w)))
    with (listeners (componentWillUnmount (mount el layout w))).
  unfold mount.
  rewrite componentWillUnmount_listeners
    by by apply componentDidMount_allocated, attachElement_allocated.
  destruct (componentDidMount_listeners layout (attachElement (Some el) w))
    as [-> _]; [done|].
  apply elem_of_app. right. by apply list_elem_of_singleton.
Qed.

Lemma foldl_updateWidth_detached layout (l : list (string * BoundFunction)) w :
  containerElement (this w) = None →
  foldl (λ w _, updateWidth layout w) w l = w.
Proof.
  intros Hnone. induction l as [|r l IH]; simpl; [done|].
  unfold updateWidth at 2. by rewrite Hnone.
Qed.

(** Once React has cleared the ref, a resize finds no element to measure
    and leaves the component as it is. *)
Lemma dispatchEvent_after_unmount type layout w :
  dispatchEvent type layout (unmount w) = unmount w.
Proof. unfold dispatchEvent. by apply foldl_updateWidth_detached. Qed.

(** C7, on the code.  Mounted on a fresh page and unmounted, the component
    leaves on the window the listener it registered: [componentWillUnmount]
    removes nothing.  A resize that follows still calls [updateWidth] of
    the component: right after [componentWillUnmount] it sets the width
    anew (500 for 300); after React has cleared the ref, it finds nothing
    to measure. *)
Theorem unmount_leaves_resize_listener :
  let mounted := mount 7 Sample.narrow fresh in
  listeners mounted = [("resize", {| identity := 0 |})]
  ∧ listeners (componentWillUnmount mounted) = listeners mounted
  ∧ listeners (unmount mounted) = listeners mounted
  ∧ width (this mounted) = Js.of_Z 300
  ∧ width (this (dispatchEvent "resize" Sample.wide
                   (componentWillUnmount mounted))) = Js.of_Z 500
  ∧ this (dispatchEvent "resize" Sample.wide (unmount mounted))
    = this (unmount mounted).
Proof. by vm_compute. Qed.
End ResizeListener.

(** ** Worked examples *)

Section Examples.
Import Sample.

Local Abbreviation dispatch :=
  (Chart.renderChartItem renderMomentLines renderMomentPoints).
Local Abbreviation compose :=
  (Chart.renderChart renderMomentLines renderMomentPoints).

(** Two lines and one set of moment lines, all in metres: one axis, of the
    color of the first series, three legend entries, three drawings. *)
Example three_series_one_axis :
  let this := props None true None [A; B; C] in
  Chart.yAxes this = [{| axis_units := "m"; axis_color := "red" |}]
  ∧ legend_name <$> Chart.legends this = ["A"; "B"; "C"]
  ∧ match compose this (Js.of_Z 300) (Js.of_Z 110) with
    | Chart.Populated chart =>
        Chart.child_items chart
        = [Some (Chart.default_renderLine A 0);
           Some (Chart.default_renderLine B 1);
           Some (Chart.Other ("momentLines C", 2))]
    | _ => False
    end.
Proof. by vm_compute. Qed.

(** Axes come in the order their units are first seen. *)
Example axes_in_first_seen_order :
  Chart.yAxes (props None true None [D; A; U; B; C])
  = [{| axis_units := "s"; axis_color := "black" |};
     {| axis_units := "m"; axis_color := "red" |};
     {| axis_units := "kg"; axis_color := "grey" |}].
Proof. by vm_compute. Qed.

Example no_xAxis_renders_nothing :
  compose (props None false None [A; B]) (Js.of_Z 300) (Js.of_Z 110)
  = Chart.Null.
Proof. by vm_compute. Qed.

Example no_points_renders_placeholder :
  compose (props None true None [item "line" "m" "E" "red" [];
                                 item "momentLines" "s" "F" "blue" []])
          (Js.of_Z 300) (Js.of_Z 80)
  = Chart.NoData (Js.of_Z 80).
Proof. by vm_compute. Qed.

(** The override draws every line; the point overlay is handed the
    sibling list and may depend on it. *)
Example override_draws_every_line :
  let this := props None true (Some override) [A; B] in
  dispatch this A [A; B] 0 = Some (Chart.Other ("custom line A", 0))
  ∧ dispatch this B [A; B] 1 = Some (Chart.Other ("custom line B", 1)).
Proof. by vm_compute. Qed.

Example momentPoints_sees_siblings :
  let this := props None true None [A; B; D] in
  dispatch this D [A; B; D] 2 = Some (Chart.Other ("momentPoints D", 3))
  ∧ dispatch this D [D] 2 = Some (Chart.Other ("momentPoints D", 1)).
Proof. by vm_compute. Qed.

Example width_floor :
  Chart.effectiveWidth (props None true None []) (Js.of_Z 50)
  = Js.of_Z 110
  ∧ Chart.effectiveWidth (props (Some (Js.of_Z 0)) true None [])
      (Js.of_Z 500) = Js.of_Z 500
  ∧ Chart.effectiveWidth (props (Some (Js.of_Z 200)) true None [])
      (Js.of_Z 500) = Js.of_Z 200
  ∧ Chart.effectiveWidth (props (Some Js.NaN) true None []) (Js.of_Z 500)
    = Js.of_Z 500.
Proof. by vm_compute. Qed.
End Examples.

(** * Further properties *)

(** ** More on [uniqBy] *)

Section UniqByMore.
Context {A K : Type} `{EqDecision K}.
Variable f : A → K.

(** Only the membership of the values seen matters. *)
Lemma baseUniq_seen_ext seen1 seen2 l :
  (∀ k, k ∈ seen1 ↔ k ∈ seen2) →
  baseUniq f seen1 l = baseUniq f seen2 l.
Proof.
  revert seen1 seen2. induction l as [|y l IH]; intros s1 s2 Hs; simpl;
    [done|].
  destruct (decide (f y ∈ s1)) as [H1|H1], (decide (f y ∈ s2)) as [H2|H2].
  - by apply IH.
  - by apply Hs in H1.
  - by apply Hs in H2.
  - f_equal. apply IH. intros k. rewrite !elem_of_cons. by rewrite Hs.
Qed.

Lemma baseUniq_app seen l1 l2 :
  baseUniq f seen (l1 ++ l2)
  = (baseUniq f seen l1 ++ baseUniq f ((f <$> l1) ++ seen) l2)%list.
Proof.
  revert seen. induction l1 as [|y l1 IH]; intros seen; simpl; [done|].
  destruct (decide (f y ∈ seen)) as [Hin|Hnin].
  - rewrite IH. f_equal. apply baseUniq_seen_ext. intros k.
    rewrite elem_of_cons, !elem_of_app. intuition (subst; tauto).
  - simpl. f_equal. rewrite IH. f_equal. apply baseUniq_seen_ext.
    intros k. rewrite !elem_of_cons, !elem_of_app, elem_of_cons. tauto.
Qed.

Lemma baseUniq_length seen l : length (baseUniq f seen l) ≤ length l.
Proof.
  revert seen. induction l as [|y l IH]; intros seen; simpl; [done|].
  destruct (decide (f y ∈ seen)); simpl.
  - specialize (IH seen). lia.
  - specialize (IH (f y :: seen)). lia.
Qed.

(** Nothing is dropped exactly when no key is seen before. *)
Lemma baseUniq_full seen l :
  length (baseUniq f seen l) = length l
  ↔ NoDup (f <$> l) ∧ ∀ x, x ∈ l → f x ∉ seen.
Proof.
  revert seen. induction l as [|y l IH]; intros seen; simpl.
  - split; [|done]. intros _. split; [constructor|]. by intros x ?%elem_of_nil.
  - destruct (decide (f y ∈ seen)) as [Hin|Hnin]; simpl.
    + split.
      * intros Hlen. pose proof (baseUniq_length seen l). lia.
      * intros [_ Hseen]. destruct (Hseen y); [by left|done].
    + rewrite NoDup_cons. split.
      * intros Hlen. apply (inj S), IH in Hlen as [Hnd Hseen].
        split_and!; [|done|].
        -- intros (x & Hfx & Hx)%list_elem_of_fmap.
           apply (Hseen x Hx). rewrite <-Hfx. by left.
        -- intros x [->|Hx]%elem_of_cons; [done|].
           intros ?. apply (Hseen x Hx). by right.
      * intros [[Hy Hnd] Hseen]. f_equal. apply IH. split; [done|].
        intros x Hx [Heq|?]%elem_of_cons.
        -- apply Hy. rewrite <-Heq.
           by apply (list_elem_of_fmap_2 f).
        -- apply (Hseen x); [by right|done].
Qed.
End UniqByMore.

(** ** Axes against legends *)

Section AxesAndLegends.
Context {Node Opaque : Type}.
Implicit Types this : Chart.Props Node Opaque.

Lemma yAxes_length_uniqBy this :
  length (Chart.yAxes this)
  = length (uniqBy (λ c : ChartItem, units c) (Chart.chartItems this)).
Proof. apply length_fmap. Qed.

Lemma yAxes_length_distinct this :
  length (Chart.yAxes this)
  = size (list_to_set (C := gset string)
            ((λ c : ChartItem, units c) <$> Chart.chartItems this)).
Proof.
  rewrite <-(length_fmap axis_units), yAxes_units.
  rewrite <-(size_list_to_set (C := gset string)) by apply baseUniq_NoDup.
  f_equal. apply set_eq. intros u. rewrite !elem_of_list_to_set. split.
  - intros (c & -> & Hc)%list_elem_of_fmap.
    apply baseUniq_elem in Hc as [Hc _].
    by apply (list_elem_of_fmap_2 (λ c : ChartItem, units c)).
  - intros Hu. apply baseUniq_keys; [done|by intros ?%elem_of_nil].
Qed.

(** X3. There are never more axes than legend entries, and as many exactly
    when no two items share their units. *)
Theorem axes_at_most_legends this :
  length (Chart.yAxes this) ≤ length (Chart.legends this)
  ∧ (length (Chart.yAxes this) = length (Chart.legends this)
     ↔ NoDup ((λ c : ChartItem, units c) <$> Chart.chartItems this)).
Proof.
  rewrite yAxes_length_uniqBy. unfold Chart.legends, uniqBy.
  rewrite length_fmap. split; [apply baseUniq_length|].
  rewrite baseUniq_full. split; [by intros [? _]|].
  intros Hnd. split; [done|]. by intros x _ ?%elem_of_nil.
Qed.

(** X4. One more item at the end of the list always adds its legend entry
    after the others.  It adds an axis, after the others and in its own
    color, only when its units are not charted yet; when they are, the axes
    stay as they were, colors included. *)
Theorem add_item_legend_always_axis_if_new_units this this' (c : ChartItem) :
  Chart.chartItems this' = (Chart.chartItems this ++ [c])%list →
  Chart.legends this'
  = (Chart.legends this
     ++ [{| legend_name := name c;
            legend_symbol := {| symbol_fill := call_detached_getColor c;
                                symbol_type := "square" |};
            legend_labels := {| labels_fill := "white" |} |}])%list
  ∧ (units c ∈ (λ i : ChartItem, units i) <$> Chart.chartItems this →
     Chart.yAxes this' = Chart.yAxes this)
  ∧ (units c ∉ (λ i : ChartItem, units i) <$> Chart.chartItems this →
     Chart.yAxes this'
     = (Chart.yAxes this
        ++ [{| axis_units := units c;
               axis_color := call_getColor c |}])%list).
Proof.
  intros Hitems. unfold Chart.legends, Chart.yAxes, uniqBy.
  rewrite Hitems, fmap_app, baseUniq_app, fmap_app. simpl.
  rewrite app_nil_r. split_and!; [done| |].
  - intros Hin. rewrite decide_True by done. simpl. by rewrite app_nil_r.
  - intros Hnin. by rewrite decide_False.
Qed.
End AxesAndLegends.

Lemma add_item_legend_always_axis_if_new_units_witness :
  let this := Sample.props None true None [Sample.A; Sample.D] in
  let this' := Sample.props None true None [Sample.A; Sample.D; Sample.B] in
  length (Chart.legends this') = 3
  ∧ Chart.yAxes this' = Chart.yAxes this.
Proof.
  intros this this'.
  destruct (add_item_legend_always_axis_if_new_units this this' Sample.B)
    as (Hl & Haxes & _); [reflexivity|].
  split; [by rewrite Hl|].
  apply Haxes. by vm_compute; apply list_elem_of_here.
Defined.

(** ** Charts that draw nothing, and the default Y axes *)

Section CompositionMore.
Context {Node Opaque : Type}.
Variable renderMomentLines : ChartItem → nat → Chart.Element Node.
Variable renderMomentPoints :
  ChartItem → list ChartItem → nat → Chart.Element Node.
Implicit Types this : Chart.Props Node Opaque.

Local Abbreviation renderChartItem :=
  (Chart.renderChartItem renderMomentLines renderMomentPoints).
Local Abbreviation renderChart :=
  (Chart.renderChart renderMomentLines renderMomentPoints).

Lemma imap_all_None {A B} (g : nat → A → option B) (l : list A) :
  (∀ i x, x ∈ l → g i x = None) → imap g l = replicate (length l) None.
Proof.
  revert g. induction l as [|x l IH]; intros g Hg; [done|].
  rewrite imap_cons. simpl. f_equal; [apply Hg; by left|].
  apply IH. intros i y Hy. apply Hg. by right.
Qed.

(** X2. The test for data does not look at the type of an item.  A list
    whose items all have a type the dispatch does not know, one of them
    with points, is composed into a chart, not into the placeholder: a
    chart with its legends and one Y axis per derived axis, and with no
    drawing at all. *)
Theorem unrecognised_items_chart_without_drawings this x
    (width height : Js.number) :
  Chart.xAxis this = Some x →
  Forall (λ c : ChartItem, ¬ recognised c) (Chart.chartItems this) →
  Exists (λ c : ChartItem, points c ≠ []) (Chart.chartItems this) →
  ∃ chart,
    renderChart this width height = Chart.Populated chart
    ∧ Chart.child_items chart
      = replicate (length (Chart.chartItems this)) None
    ∧ Chart.child_legends chart
      = Chart.renderLegends this (Chart.legends this) width
    ∧ length (Chart.child_yAxes chart) = length (Chart.yAxes this)
    ∧ 0 < length (Chart.yAxes this).
Proof.
  intros Hx Hunknown Hpoints. unfold Chart.renderChart.
  rewrite Hx, (proj2 (hasData_true this) Hpoints).
  eexists. split; [done|]. simpl. split_and!; [|done|apply length_imap|].
  - apply imap_all_None. intros i c Hc.
    rewrite Forall_forall in Hunknown. specialize (Hunknown c Hc).
    apply renderChartItem_other; intros Ht; apply Hunknown;
      unfold recognised; tauto.
  - rewrite yAxes_length_uniqBy. unfold uniqBy.
    apply Exists_exists in Hpoints as (c & Hc & _).
    destruct (Chart.chartItems this) as [|c0 l]; [by apply elem_of_nil in Hc|].
    simpl. lia.
Qed.

(** X10. With the default Y-axis renderer, the Y axes of the chart are
    dependent axes keyed 0, 1, ... with no label, one for each distinct
    [units] value of the items: neither the units nor the color of a
    derived axis reaches its element. *)
Theorem default_yAxes_unlabelled
    (element : Defaults.VictoryAxis → Node) this x
    (width height : Js.number) :
  Chart.renderYAxis this = Defaults.renderYAxis element →
  Chart.xAxis this = Some x →
  Chart.hasData this = true →
  ∃ chart,
    renderChart this width height = Chart.Populated chart
    ∧ Chart.child_yAxes chart
      = (λ i, Chart.Other
                (element {| Defaults.dependentAxis := true;
                            Defaults.axis_key := Some i;
                            Defaults.label := None |}))
        <$> seq 0 (size (list_to_set (C := gset string)
                           ((λ c : ChartItem, units c)
                              <$> Chart.chartItems this))).
Proof.
  intros Hy Hx Hdata. unfold Chart.renderChart. rewrite Hx, Hdata, Hy.
  eexists. split; [done|]. simpl.
  rewrite <-yAxes_length_distinct. unfold Defaults.renderYAxis.
  apply (imap_seq_0 (Chart.yAxes this)
           (λ i, Chart.Other
                   (element {| Defaults.dependentAxis := true;
                               Defaults.axis_key := Some i;
                               Defaults.label := None |}))).
Qed.
End CompositionMore.

Lemma unrecognised_items_chart_without_drawings_witness :
  ∃ chart,
    Chart.renderChart Sample.renderMomentLines Sample.renderMomentPoints
      (Sample.props None true None [Sample.U; Sample.U])
      (Js.of_Z 300) (Js.of_Z 110)
    = Chart.Populated chart
    ∧ Chart.child_items chart = [None; None].
Proof.
  destruct (unrecognised_items_chart_without_drawings
              Sample.renderMomentLines Sample.renderMomentPoints
              (Sample.props None true None [Sample.U; Sample.U])
              {| Chart.xAxis_units := "time"; Chart.xAxis_scale := () |}
              (Js.of_Z 300) (Js.of_Z 110))
    as (chart & Hchart & Hitems & _).
  - reflexivity.
  - repeat constructor; vm_compute; intros [H|[H|H]]; discriminate H.
  - left. by vm_compute.
  - exists chart. by split.
Defined.

Lemma default_yAxes_unlabelled_witness :
  ∃ chart,
    Chart.renderChart SampleDefaults.renderMomentLines
      SampleDefaults.renderMomentPoints
      (SampleDefaults.props [Sample.A; Sample.B; SampleDefaults.E])
      (Js.of_Z 300) (Js.of_Z 110)
    = Chart.Populated chart
    ∧ length (Chart.child_yAxes chart) = 2.
Proof.
  destruct (default_yAxes_unlabelled
              SampleDefaults.renderMomentLines
              SampleDefaults.renderMomentPoints inl
              (SampleDefaults.props [Sample.A; Sample.B; SampleDefaults.E])
              {| Chart.xAxis_units := "time"; Chart.xAxis_scale := () |}
              (Js.of_Z 300) (Js.of_Z 110))
    as (chart & Hchart & Haxes); [reflexivity..|].
  exists chart. split; [done|]. rewrite Haxes. by vm_compute.
Defined.

(** ** The floor of the width *)

Section WidthFloor.
Context {Node Opaque : Type}.
Variable renderMomentLines : ChartItem → nat → Chart.Element Node.
Variable renderMomentPoints :
  ChartItem → list ChartItem → nat → Chart.Element Node.
Implicit Types this : Chart.Props Node Opaque.

(** X5. Whenever the width chosen (the supplied one if it is not zero, else
    the measured one) is a number below 110, negative ones included, the
    chart is composed exactly 110 wide. *)
Theorem effectiveWidth_floor this (parentWidth : Js.number) (q : Q) :
  Js.or (Chart.width this) parentWidth = Js.Finite q →
  (q < 110)%Q →
  Chart.effectiveWidth this parentWidth = Chart.chartMinWidth
  ∧ (∀ w : Sized.World,
       Sized.width (Sized.this w) = parentWidth →
       Sized.render
         (Chart.render renderMomentLines renderMomentPoints this) w
       = Chart.renderChart renderMomentLines renderMomentPoints this
           Chart.chartMinWidth (Chart.height this)).
Proof.
  intros Hchosen Hlt.
  assert (Chart.effectiveWidth this parentWidth = Chart.chartMinWidth)
    as Hfloor.
  { unfold Chart.effectiveWidth. rewrite Hchosen.
    unfold Chart.chartMinWidth, Js.of_Z. simpl.
    destruct (Qle_bool (inject_Z 110) q) eqn:Hle; [|done].
    apply Qle_bool_iff in Hle. by apply Qlt_not_le in Hlt. }
  split; [done|].
  intros w <-. unfold Sized.render, Chart.render. by rewrite Hfloor.
Qed.
End WidthFloor.

Lemma effectiveWidth_floor_witness :
  Chart.effectiveWidth
    (Sample.props (Some (Js.of_Z (-40))) true None []) (Js.of_Z 500)
  = Chart.chartMinWidth.
Proof.
  apply (effectiveWidth_floor Sample.renderMomentLines
           Sample.renderMomentPoints
           (Sample.props (Some (Js.of_Z (-40))) true None [])
           (Js.of_Z 500) (inject_Z (-40))); reflexivity.
Defined.

(** ** The life of a [Sized] *)

Section SizedLife.
Import Sized.

Lemma updateWidth_attached layout el w :
  containerElement (this w) = Some el →
  updateWidth layout w = measured el layout w.
Proof. intros Hel. unfold updateWidth. by rewrite Hel. Qed.

Lemma foldl_updateWidth_attached layout el
    (l : list (string * BoundFunction)) w :
  containerElement (this w) = Some el → l ≠ [] →
  foldl (λ w _, updateWidth layout w) w l = measured el layout w.
Proof.
  intros Hel Hl. destruct l as [|r l]; [done|]. clear Hl. simpl.
  rewrite (updateWidth_attached _ _ _ Hel).
  induction l as [|r' l IH]; simpl; [done|]. apply IH.
Qed.

Lemma mount_this el layout w :
  this (mount el layout w)
  = {| containerElement := Some el; width := layout el |}.
Proof.
  unfold mount, componentDidMount, bind_updateWidth, addEventListener.
  simpl. by case_decide.
Qed.

Lemma mount_listeners el layout w :
  listeners_allocated w →
  listeners (mount el layout w)
  = (listeners w ++ [("resize", {| identity := allocated w |})])%list
  ∧ allocated (mount el layout w) = S (allocated w).
Proof.
  intros Hw. unfold mount.
  by apply (componentDidMount_listeners layout (attachElement (Some el) w)).
Qed.

Lemma mount_unmount_listeners el layout w :
  listeners_allocated w →
  listeners (mount_unmount el layout w)
  = (listeners w ++ [("resize", {| identity := allocated w |})])%list
  ∧ allocated (mount_unmount el layout w) = S (S (allocated w))
  ∧ listeners_allocated (mount_unmount el layout w).
Proof.
  intros Hw. destruct (mount_listeners el layout w Hw) as [Hl Ha].
  assert (listeners_allocated (mount el layout w)) as Hm.
  { by apply componentDidMount_allocated, attachElement_allocated. }
  assert (listeners (mount_unmount el layout w)
          = listeners (mount el layout w)) as Hsame.
  { by apply componentWillUnmount_listeners. }
  assert (allocated (mount_unmount el layout w)
          = S (allocated (mount el layout w))) as Hnext by done.
  split_and!.
  - by rewrite Hsame.
  - by rewrite Hnext, Ha.
  - intros type f. rewrite Hsame, Hnext. intros Hin%Hm. lia.
Qed.
End SizedLife.

Section SizedAndChart.
Import Sized.
Context {Node Opaque : Type}.
Variable renderMomentLines : ChartItem → nat → Chart.Element Node.
Variable renderMomentPoints :
  ChartItem → list ChartItem → nat → Chart.Element Node.
Implicit Types props : Chart.Props Node Opaque.

Local Abbreviation chart :=
  (Chart.render renderMomentLines renderMomentPoints).
Local Abbreviation renderChart :=
  (Chart.renderChart renderMomentLines renderMomentPoints).

(** X6. A [Sized] that has measured nothing holds width 0, so a chart with
    no width of its own is first composed 110 wide.  Mounting measures at
    once: the component then holds its element and the width of that
    element, the window has one more "resize" listener, after those it had,
    and the chart is composed as wide as [Math.max(110, supplied ||
    measured)] for the width just measured. *)
Theorem mount_measures_at_once el layout w props :
  listeners_allocated w →
  (Sized.this w = initial → Chart.width props = None →
   Sized.render (chart props) w
   = renderChart props Chart.chartMinWidth (Chart.height props))
  ∧ Sized.this (mount el layout w)
    = {| containerElement := Some el; width := layout el |}
  ∧ listeners (mount el layout w)
    = (listeners w ++ [("resize", {| identity := allocated w |})])%list
  ∧ Sized.render (chart props) (mount el layout w)
    = renderChart props
        (Js.Math_max Chart.chartMinWidth
           (Js.or (Chart.width props) (layout el)))
        (Chart.height props).
Proof.
  intros Hw. split_and!.
  - intros Hinit Hnone. unfold Sized.render, Chart.render.
    rewrite Hinit. unfold Chart.effectiveWidth. by rewrite Hnone.
  - apply mount_this.
  - by apply mount_listeners.
  - unfold Sized.render. by rewrite mount_this.
Qed.
End SizedAndChart.

Lemma mount_measures_at_once_witness :
  Sized.this (Sized.mount 7 Sample.narrow Sized.fresh)
  = {| Sized.containerElement := Some 7; Sized.width := Js.of_Z 300 |}.
Proof.
  apply (mount_measures_at_once Sample.renderMomentLines
           Sample.renderMomentPoints 7 Sample.narrow Sized.fresh
           (Sample.props None true None [])).
  apply fresh_listeners_allocated.
Defined.

Section SizedResize.
Import Sized.

(** X7. While the component is mounted, a resize measures its element
    anew: it leaves the component holding the same element and the width
    the element has now, and the listeners as they were; a second resize
    under the same layout changes nothing more. *)
Theorem resize_while_mounted_remeasures el layout layout' w :
  listeners_allocated w →
  let mounted := mount el layout w in
  let resized := dispatchEvent "resize" layout' mounted in
  Sized.this resized
  = {| containerElement := Some el; width := layout' el |}
  ∧ listeners resized = listeners mounted
  ∧ allocated resized = allocated mounted
  ∧ dispatchEvent "resize" layout' resized = resized.
Proof.
  intros Hw mounted resized.
  destruct (mount_listeners el layout w Hw) as [Hl _].
  assert (∀ w' : World,
            containerElement (Sized.this w') = Some el →
            listeners w' = listeners mounted →
            dispatchEvent "resize" layout' w' = measured el layout' w')
    as Hresize.
  { intros w' Hel Hl'. unfold dispatchEvent.
    apply foldl_updateWidth_attached; [done|].
    rewrite Hl'. subst mounted. rewrite Hl, filter_app.
    rewrite filter_cons_True by done.
    intros Hnil. by apply app_eq_nil in Hnil as [_ ?]. }
  assert (resized = measured el layout' mounted) as Hresized.
  { apply Hresize; [|done]. subst mounted. by rewrite mount_this. }
  clearbody resized. subst resized.
  split_and!; try done. by rewrite Hresize.
Qed.

(** X8. With no element attached, a resize is a no-op however many
    listeners the window holds: [updateWidth] and the dispatch of any event
    leave the world as it is, and [componentDidMount] leaves the component
    as it is.  That is the state of a component after its unmount, where
    the ref has been cleared. *)
Theorem resize_without_element_is_noop type layout w :
  containerElement (Sized.this w) = None →
  updateWidth layout w = w
  ∧ dispatchEvent type layout w = w
  ∧ Sized.this (componentDidMount layout w) = Sized.this w
  ∧ ∀ w' : World,
      containerElement (Sized.this (unmount w')) = None
      ∧ dispatchEvent type layout (unmount w') = unmount w'.
Proof.
  intros Hnone.
  assert (updateWidth layout w = w) as Hupdate.
  { unfold updateWidth. by rewrite Hnone. }
  split_and!; [done| | |].
  - unfold dispatchEvent. by apply foldl_updateWidth_detached.
  - unfold componentDidMount, bind_updateWidth, addEventListener.
    rewrite Hupdate. simpl. by case_decide.
  - intros w'. split; [done|]. apply dispatchEvent_after_unmount.
Qed.

(** X9. [componentWillUnmount] never takes a listener off the window.
    Mounting and unmounting a [Sized] [n] times over leaves every listener
    the window had, and after them [n] more "resize" listeners, one for
    each mount. *)
Theorem mount_unmount_accumulates_listeners (n : nat) el layout w :
  listeners_allocated w →
  listeners (componentWillUnmount w) = listeners w
  ∧ listeners (Nat.iter n (mount_unmount el layout) w)
    = (listeners w
       ++ ((λ i, ("resize", {| identity := allocated w + 2 * i |}))
             <$> seq 0 n))%list.
Proof.
  intros Hw. split; [by apply componentWillUnmount_listeners|].
  assert (listeners (Nat.iter n (mount_unmount el layout) w)
          = (listeners w
             ++ ((λ i, ("resize", {| identity := allocated w + 2 * i |}))
                   <$> seq 0 n))%list
          ∧ allocated (Nat.iter n (mount_unmount el layout) w)
            = allocated w + 2 * n
          ∧ listeners_allocated (Nat.iter n (mount_unmount el layout) w))
    as (? & _ & _); [|done].
  induction n as [|n (IHl & IHa & IHw)].
  - simpl. split_and!; [by rewrite app_nil_r|lia|done].
  - change (Nat.iter (S n) (mount_unmount el layout) w)
      with (mount_unmount el layout
              (Nat.iter n (mount_unmount el layout) w)).
    destruct (mount_unmount_listeners el layout _ IHw) as (Hl & Ha & Hw').
    split_and!; [|rewrite Ha, IHa; lia|done].
    rewrite Hl, IHl, IHa, seq_S, fmap_app, <-app_assoc. done.
Qed.
End SizedResize.

Lemma resize_while_mounted_remeasures_witness :
  Sized.width
    (Sized.this
       (Sized.dispatchEvent "resize" Sample.wide
          (Sized.mount 7 Sample.narrow Sized.fresh)))
  = Js.of_Z 500.
Proof.
  destruct (resize_while_mounted_remeasures 7 Sample.narrow Sample.wide
              Sized.fresh fresh_listeners_allocated) as [-> _].
  reflexivity.
Defined.

Lemma resize_without_element_is_noop_witness :
  Sized.dispatchEvent "resize" Sample.wide Sized.fresh = Sized.fresh.
Proof.
  apply (resize_without_element_is_noop "resize" Sample.wide Sized.fresh).
  reflexivity.
Defined.

Lemma mount_unmount_accumulates_listeners_witness :
  length (Sized.listeners
            (Nat.iter 3 (mount_unmount 7 Sample.narrow) Sized.fresh)) = 3.
Proof.
  destruct (mount_unmount_accumulates_listeners 3 7 Sample.narrow
              Sized.fresh fresh_listeners_allocated) as [_ ->].
  reflexivity.
Defined.

(** ** Axis colors against legend colors, and the width that is a number *)

Section ColorsAndNumbers.
Context {Node Opaque : Type}.
Implicit Types this : Chart.Props Node Opaque.

(** X11. Every axis has the color of a legend swatch: that of the first
    item carrying its units, provided the accessor of that item does not
    look at its receiver (the axis calls it as a method, the legend as a
    bare function). *)
Theorem axis_color_is_first_legend_color this (k : nat) (a : Axis) :
  Chart.yAxes this !! k = Some a →
  ∃ (i : nat) (item : ChartItem) (entry : Legend),
    list_find (λ c : ChartItem, units c = axis_units a)
              (Chart.chartItems this) = Some (i, item)
    ∧ Chart.legends this !! i = Some entry
    ∧ legend_name entry = name item
    ∧ (receiver_independent item →
       symbol_fill (legend_symbol entry) = axis_color a).
Proof.
  intros (item & Hk & Hu & Hc)%yAxes_lookup.
  destruct (baseUniq_lookup _ _ _ _ _ Hk) as [i Hi].
  pose proof Hi as [Hitem _].
  exists i, item. eexists. split_and!.
  - rewrite Hu. by apply (first_at_list_find (λ c : ChartItem, units c)).
  - by apply legends_lookup.
  - done.
  - intros Hind. simpl. rewrite Hc. by apply getColor_either_call.
Qed.

(** X12. Whatever the width prop is (absent, zero, NaN, negative, any
    number), as long as the measured width is a number the width passed on
    is a number too, and is not below 110. *)
Theorem effectiveWidth_at_least_floor this (parentWidth : Js.number) :
  parentWidth ≠ Js.NaN →
  Chart.effectiveWidth this parentWidth ≠ Js.NaN
  ∧ Js.leb Chart.chartMinWidth (Chart.effectiveWidth this parentWidth)
    = true.
Proof.
  intros Hpw. unfold Chart.effectiveWidth.
  assert (Js.or (Chart.width this) parentWidth ≠ Js.NaN) as Hchosen.
  { unfold Js.or. destruct (Chart.width this) as [s|]; [|done].
    destruct (Js.truthy s) eqn:Hs; [|done]. by destruct s. }
  destruct (Math_max_is_larger Chart.chartMinWidth _ ltac:(done) Hchosen)
    as (Hfloor & _ & Hone).
  split; [|done]. by destruct Hone as [-> | ->].
Qed.
End ColorsAndNumbers.

Lemma axis_color_is_first_legend_color_witness :
  ∃ (i : nat) (item : ChartItem) (entry : Legend),
    list_find (λ c : ChartItem, units c = "m")
              [Sample.D; Sample.A; Sample.B] = Some (i, item)
    ∧ Chart.legends
        (Sample.props None true None [Sample.D; Sample.A; Sample.B]) !! i
      = Some entry
    ∧ legend_name entry = name item
    ∧ (receiver_independent item →
       symbol_fill (legend_symbol entry) = "red").
Proof.
  apply (axis_color_is_first_legend_color
           (Sample.props None true None [Sample.D; Sample.A; Sample.B])
           1 {| axis_units := "m"; axis_color := "red" |}).
  reflexivity.
Defined.

Lemma effectiveWidth_at_least_floor_witness :
  let this := Sample.props (Some Js.NaN) true None [] in
  Chart.effectiveWidth this (Js.of_Z 20) ≠ Js.NaN
  ∧ Js.leb Chart.chartMinWidth (Chart.effectiveWidth this (Js.of_Z 20))
    = true.
Proof.
  apply (effectiveWidth_at_least_floor
           (Sample.props (Some Js.NaN) true None []) (Js.of_Z 20)).
  discriminate.
Defined.
